(** * MCP Hub: service registry, load balancer and router

    A shallow embedding of [mcp-hub/src/registry.py], [mcp-hub/src/router.py]
    and the HTTP handlers of [mcp-hub/main.py], with the properties of the
    design document proved (or refuted) on it.

    Conventions of the embedding.
    - A Python [dict] whose iteration order is observable (the registry's
      [services]) is an association list kept in insertion order; a dict
      that is only read by key (the connection counters) is a [gmap].
    - [time.time()] is an explicit argument [now]; time stamps are exact
      rationals.
    - A coroutine without an [await] in its body runs to completion once
      scheduled, so it is a function on the shared state; [await] points
      are where the environment can act.
    - Exceptions are values of [exn]; a block that can raise returns a sum. *)

From Stdlib Require Import ZArith QArith Lia.
From stdpp Require Import gmap strings list fin_maps pretty.

Local Open Scope Z_scope.
Local Open Scope string_scope.

(** ** Exceptions *)

Module Exn.

(** The exceptions the modelled code raises or catches.  [CancelledError]
    derives from [BaseException] only, so [except Exception] lets it
    through; the other three are [Exception]s. *)
Inductive exn : Type :=
| KeyError (key : string)
| HTTPException (status_code : Z) (detail : string)
| Exception (msg : string)
| CancelledError.

Definition is_Exception (e : exn) : bool :=
  match e with CancelledError => false | _ => true end.

(** [repr] of a [str], as CPython writes it: apostrophes around the text
    unless it holds an apostrophe and no double quote; the quote in use and
    the backslash are escaped with a backslash; tab, newline and carriage
    return are written [\t], [\n], [\r], the other control characters
    [\xhh].  Strings are UTF-8 byte strings here, and a byte above 127 is
    copied: it belongs to a character taken as printable. *)
Definition chr (n : nat) : Ascii.ascii := Ascii.ascii_of_nat n.

Fixpoint contains (c : Ascii.ascii) (s : string) : bool :=
  match s with
  | EmptyString => false
  | String c' s' => Ascii.eqb c c' || contains c s'
  end.

Definition quote_for (s : string) : Ascii.ascii :=
  if contains (chr 39) s && negb (contains (chr 34) s) then chr 34
  else chr 39.

Definition hex_digit (n : nat) : Ascii.ascii :=
  if Nat.ltb n 10 then chr (48 + n) else chr (87 + n).

Definition escape (quote c : Ascii.ascii) : string :=
  let n := Ascii.nat_of_ascii c in
  if Ascii.eqb c quote || Nat.eqb n 92
  then String (chr 92) (String c EmptyString)
  else if Nat.eqb n 9 then String (chr 92) "t"
  else if Nat.eqb n 10 then String (chr 92) "n"
  else if Nat.eqb n 13 then String (chr 92) "r"
  else if Nat.ltb n 32 || Nat.eqb n 127
  then String (chr 92)
         (String (chr 120)
            (String (hex_digit (n / 16))
               (String (hex_digit (n mod 16)) EmptyString)))
  else String c EmptyString.

Fixpoint escape_all (quote : Ascii.ascii) (s : string) : string :=
  match s with
  | EmptyString => EmptyString
  | String c s' => escape quote c ++ escape_all quote s'
  end.

Definition repr (s : string) : string :=
  let quote := quote_for s in
  String quote (escape_all quote s ++ String quote EmptyString).

(** [str(e)]: a [KeyError] shows the repr of its key, an [HTTPException]
    its status and detail, a plain exception its message. *)
Definition str (e : exn) : string :=
  match e with
  | KeyError k => repr k
  | HTTPException c d => pretty c ++ ": " ++ d
  | Exception m => m
  | CancelledError => ""
  end.

(** A computation that returns a value or raises. *)
Definition result (A : Type) : Type := (A + exn)%type.

Definition ret {A : Type} (a : A) : result A := inl a.
Definition raise {A : Type} (e : exn) : result A := inr e.

Definition bind {A B : Type} (m : result A) (k : A -> result B) : result B :=
  match m with
  | inl a => k a
  | inr e => inr e
  end.

End Exn.

Notation "'letE' x ':=' m 'in' k" := (Exn.bind m (fun x => k))
  (at level 10, x name, m at level 100, k at level 200).

(** ** Python dictionaries with observable order *)

Module PyDict.

Section Ops.
Context {V : Type}.

(** [d.get(k)] *)
Fixpoint get (k : string) (d : list (string * V)) : option V :=
  match d with
  | [] => None
  | (k', v) :: d' => if decide (k = k') then Some v else get k d'
  end.

(** [d[k] = v]: an existing key keeps its position, a new key goes last. *)
Fixpoint set (k : string) (v : V) (d : list (string * V)) : list (string * V) :=
  match d with
  | [] => [(k, v)]
  | (k', v') :: d' =>
      if decide (k = k') then (k, v) :: d' else (k', v') :: set k v d'
  end.

(** [k in d] *)
Definition mem (k : string) (d : list (string * V)) : bool :=
  match get k d with Some _ => true | None => false end.

(** Removal of the entry under [k]. *)
Fixpoint remove (k : string) (d : list (string * V)) : list (string * V) :=
  match d with
  | [] => []
  | (k', v') :: d' =>
      if decide (k = k') then remove k d' else (k', v') :: remove k d'
  end.

(** [del d[k]]: a [KeyError] when [k] is absent. *)
Definition del (k : string) (d : list (string * V))
  : Exn.result (list (string * V)) :=
  if mem k d then Exn.ret (remove k d) else Exn.raise (Exn.KeyError k).

(** [d.values()] and [d.keys()], in iteration order. *)
Definition values (d : list (string * V)) : list V := map snd d.
Definition keys (d : list (string * V)) : list string := map fst d.

(** The object stored under [k] replaced by its image under [f]. *)
Fixpoint update (k : string) (f : V -> V) (d : list (string * V))
  : list (string * V) :=
  match d with
  | [] => []
  | (k', v') :: d' =>
      if decide (k = k') then (k', f v') :: d' else (k', v') :: update k f d'
  end.

(** [d[k].attr = x], with [f] the attribute assignment: the subscript
    raises a [KeyError] when [k] is absent. *)
Definition setattr (k : string) (f : V -> V) (d : list (string * V))
  : Exn.result (list (string * V)) :=
  if mem k d then Exn.ret (update k f d) else Exn.raise (Exn.KeyError k).

(** Update of every stored object, in iteration order
    ([for k, v in d.items(): v.attr = ...]). *)
Definition update_all (f : V -> V) (d : list (string * V))
  : list (string * V) :=
  map (fun kv => (fst kv, f (snd kv))) d.

End Ops.

End PyDict.

(** ** registry.py *)

Module Registry.

(** [class ServiceStatus(Enum)] *)
Inductive ServiceStatus : Set := HEALTHY | UNHEALTHY | UNKNOWN.

#[export] Instance ServiceStatus_eq_dec : EqDecision ServiceStatus.
Proof. solve_decision. Defined.

(** [@dataclass class ServiceInfo] *)
Record ServiceInfo : Type := mkServiceInfo {
  name : string;
  host : string;
  port : Z;
  capabilities : list string;
  status : ServiceStatus;
  last_heartbeat : Q;
  metadata : list (string * string)
}.

(** The dataclass constructor as the hub calls it: [status] is left at its
    default [UNKNOWN], [metadata] defaults to an empty dict when [None], and
    [__post_init__] overwrites [last_heartbeat] with [time.time()]. *)
Definition new_ServiceInfo (now : Q) (n h : string) (p : Z)
    (caps : list string) (md : option (list (string * string))) : ServiceInfo :=
  {| name := n; host := h; port := p; capabilities := caps;
     status := UNKNOWN;
     last_heartbeat := now;
     metadata := match md with Some m => m | None => [] end |}.

Definition set_status (st : ServiceStatus) (s : ServiceInfo) : ServiceInfo :=
  {| name := name s; host := host s; port := port s;
     capabilities := capabilities s; status := st;
     last_heartbeat := last_heartbeat s; metadata := metadata s |}.

Definition set_last_heartbeat (t : Q) (s : ServiceInfo) : ServiceInfo :=
  {| name := name s; host := host s; port := port s;
     capabilities := capabilities s; status := status s;
     last_heartbeat := t; metadata := metadata s |}.

(** [class ServiceRegistry]; [health_check_task] records whether
    [_health_check_task] has been created. *)
Record ServiceRegistry : Type := mkRegistry {
  services : list (string * ServiceInfo);
  heartbeat_interval : Z;
  health_check_interval : Z;
  health_check_task : bool
}.

(** [ServiceRegistry.__init__] *)
Definition init (hb hc : Z) : ServiceRegistry :=
  {| services := []; heartbeat_interval := hb; health_check_interval := hc;
     health_check_task := false |}.

Definition with_services (d : list (string * ServiceInfo))
    (r : ServiceRegistry) : ServiceRegistry :=
  {| services := d; heartbeat_interval := heartbeat_interval r;
     health_check_interval := health_check_interval r;
     health_check_task := health_check_task r |}.

(** [register]: stores the object under its name, starts the monitor task if
    it is not running yet, returns [True].  Nothing in the [try] block can
    raise on a record with a string name, so the [except] branch is dead. *)
Definition register (service : ServiceInfo) (r : ServiceRegistry)
  : bool * ServiceRegistry :=
  (true,
   {| services := PyDict.set (name service) service (services r);
      heartbeat_interval := heartbeat_interval r;
      health_check_interval := health_check_interval r;
      health_check_task := true |}).

(** [deregister] *)
Definition deregister (service_name : string) (r : ServiceRegistry)
  : Exn.result (bool * ServiceRegistry) :=
  if PyDict.mem service_name (services r)
  then
    letE d := PyDict.del service_name (services r) in
    Exn.ret (true, with_services d r)
  else Exn.ret (false, r).

(** [update_heartbeat] *)
Definition update_heartbeat (now : Q) (service_name : string)
    (r : ServiceRegistry) : Exn.result (bool * ServiceRegistry) :=
  if PyDict.mem service_name (services r)
  then
    letE d1 := PyDict.setattr service_name (set_last_heartbeat now) (services r) in
    letE d2 := PyDict.setattr service_name (set_status HEALTHY) d1 in
    Exn.ret (true, with_services d2 r)
  else Exn.ret (false, r).

(** [get_service] *)
Definition get_service (service_name : string) (r : ServiceRegistry)
  : option ServiceInfo :=
  PyDict.get service_name (services r).

(** [get_services_by_capability] *)
Definition get_services_by_capability (capability : string)
    (r : ServiceRegistry) : list ServiceInfo :=
  filter (fun s => capability ∈ capabilities s /\ status s = HEALTHY)
         (PyDict.values (services r)).

(** [get_healthy_services] *)
Definition get_healthy_services (r : ServiceRegistry) : list ServiceInfo :=
  filter (fun s => status s = HEALTHY) (PyDict.values (services r)).

(** [a > b] on time stamps. *)
Definition Qgtb (a b : Q) : bool :=
  match Qcompare a b with Gt => true | _ => false end.

(** The body of the [for] loop of [_monitor_health] for one service. *)
Definition reclassify (current_time : Q) (hb : Z) (s : ServiceInfo)
  : ServiceInfo :=
  let time_since_heartbeat := Qminus current_time (last_heartbeat s) in
  if Qgtb time_since_heartbeat (inject_Z (hb * 2)) then set_status UNHEALTHY s
  else if Qgtb time_since_heartbeat (inject_Z hb) then set_status UNKNOWN s
  else s.

(** One iteration of the [while True] loop of [_monitor_health], up to its
    [await asyncio.sleep]: every entry is visited once, in dictionary
    order. *)
Definition monitor_cycle (current_time : Q) (r : ServiceRegistry)
  : ServiceRegistry :=
  with_services
    (PyDict.update_all (reclassify current_time (heartbeat_interval r))
                       (services r)) r.

(** The loop itself, unrolled along the clock readings of its cycles. *)
Definition monitor_health (clock : list Q) (r : ServiceRegistry)
  : ServiceRegistry :=
  fold_left (fun r t => monitor_cycle t r) clock r.

End Registry.

(** ** router.py *)

Module Router.

Import Registry Exn.

(** [@dataclass class RouteRequest]; [params] is an opaque bag. *)
Record RouteRequest : Type := mkRouteRequest {
  method : string;
  params : list (string * string);
  capability : option string;
  target_service : option string;
  request_id : option string
}.

(** [@dataclass class RouteResponse] *)
Record RouteResponse : Type := mkRouteResponse {
  success : bool;
  data : option (list (string * string));
  error : option string;
  service_name : option string;
  response_request_id : option string
}.

(** Truth value of an [Optional[str]]: [None] and the empty string are
    false; a true one is returned as it is. *)
Definition truthy (o : option string) : option string :=
  match o with
  | Some (String a s) => Some (String a s)
  | _ => None
  end.

(** The dict handed to the strategies.  Only the keys ['last_index'] (an
    int) and ['connections'] (a dict of counters) are ever looked up; a
    field is [None] while its key is absent. *)
Record LBState : Type := mkLBState {
  last_index : option Z;
  connections : option (gmap string Z)
}.

Definition empty_state : LBState :=
  {| last_index := None; connections := None |}.

Module LoadBalancer.

(** [LoadBalancer.round_robin]: the pick, and the state dict after the
    call. *)
Definition round_robin (services : list ServiceInfo) (state : LBState)
  : option ServiceInfo * LBState :=
  match services with
  | [] => (None, state)
  | _ =>
      let last := default (-1) (last_index state) in
      let next_index := (last + 1) `mod` Z.of_nat (length services) in
      (services !! Z.to_nat next_index,
       {| last_index := Some next_index; connections := connections state |})
  end.

(** [LoadBalancer.random_choice]; [rnd] is the draw of [random.choice]. *)
Definition random_choice (rnd : nat) (services : list ServiceInfo)
    (state : LBState) : option ServiceInfo * LBState :=
  match services with
  | [] => (None, state)
  | _ => (services !! (rnd mod length services)%nat, state)
  end.

(** [conn_count < min_connections], where [min_connections] starts at
    [float('inf')], written [None]: every count is below it. *)
Definition below (conn_count : Z) (min_connections : option Z) : bool :=
  match min_connections with
  | None => true
  | Some m => bool_decide (conn_count < m)
  end.

(** The [for] loop of [least_connections]. *)
Fixpoint least_loop (conns : gmap string Z) (services : list ServiceInfo)
    (min_connections : option Z) (selected_service : option ServiceInfo)
  : option ServiceInfo :=
  match services with
  | [] => selected_service
  | service :: rest =>
      let conn_count := default 0 (conns !! name service) in
      if below conn_count min_connections
      then least_loop conns rest (Some conn_count) (Some service)
      else least_loop conns rest min_connections selected_service
  end.

(** [LoadBalancer.least_connections] *)
Definition least_connections (services : list ServiceInfo) (state : LBState)
  : option ServiceInfo * LBState :=
  match services with
  | [] => (None, state)
  | _ =>
      let conns := default ∅ (connections state) in
      (least_loop conns services None None, state)
  end.

End LoadBalancer.

(** The strategy table of [Router.__init__]. *)
Inductive Strategy : Set := RoundRobin | RandomChoice | LeastConnections.

Definition strategy_of (load_balancer_strategy : string) : Strategy :=
  if decide (load_balancer_strategy = "round_robin") then RoundRobin
  else if decide (load_balancer_strategy = "random") then RandomChoice
  else if decide (load_balancer_strategy = "least_connections")
       then LeastConnections
  else RoundRobin.

Definition run_strategy (s : Strategy) (rnd : nat)
  : list ServiceInfo -> LBState -> option ServiceInfo * LBState :=
  match s with
  | RoundRobin => LoadBalancer.round_robin
  | RandomChoice => LoadBalancer.random_choice rnd
  | LeastConnections => LoadBalancer.least_connections
  end.

(** [class Router].  [registry] is the hub's one registry object: the
    HTTP handlers reach it through this field. *)
Record Router : Type := mkRouter {
  registry : ServiceRegistry;
  load_balancer_state : LBState;
  active_connections : gmap string Z;
  load_balancer : Strategy
}.

(** [Router.__init__] *)
Definition init (reg : ServiceRegistry) (load_balancer_strategy : string)
  : Router :=
  {| registry := reg; load_balancer_state := empty_state;
     active_connections := ∅;
     load_balancer := strategy_of load_balancer_strategy |}.

Definition with_registry (reg : ServiceRegistry) (r : Router) : Router :=
  {| registry := reg; load_balancer_state := load_balancer_state r;
     active_connections := active_connections r;
     load_balancer := load_balancer r |}.

Definition with_state (st : LBState) (r : Router) : Router :=
  {| registry := registry r; load_balancer_state := st;
     active_connections := active_connections r;
     load_balancer := load_balancer r |}.

Definition with_connections (c : gmap string Z) (r : Router) : Router :=
  {| registry := registry r; load_balancer_state := load_balancer_state r;
     active_connections := c; load_balancer := load_balancer r |}.

(** [_forward_request], first statement:
    [active_connections[name] = active_connections.get(name, 0) + 1]. *)
Definition acquire (n : string) (c : gmap string Z) : gmap string Z :=
  <[n := default 0 (c !! n) + 1]> c.

(** [_forward_request], [finally] block: [active_connections[name] -= 1],
    a [KeyError] when the key is absent. *)
Definition release (n : string) (c : gmap string Z)
  : result (gmap string Z) :=
  match c !! n with
  | Some k => ret (<[n := k - 1]> c)
  | None => raise (KeyError n)
  end.

(** The [try] block of [_forward_request]: the call to the worker (in the
    source, [await asyncio.sleep(0.1)]) either returns or raises [e]. *)
Definition forward_body (call : option exn) (service : ServiceInfo)
    (request : RouteRequest) : result RouteResponse :=
  match call with
  | Some e => raise e
  | None =>
      ret {| success := true;
             data := Some [("message",
                            "Request processed by " ++ name service)];
             error := None;
             service_name := Some (name service);
             response_request_id := request_id request |}
  end.

(** [_forward_request]: acquire, [try] block, [finally].  The task is
    suspended at the [await] of the [try] block; [others] is what the tasks
    scheduled meanwhile do to the router (the identity when none runs).  An
    exception raised by the [finally] block replaces the outcome of the
    [try] block. *)
Definition forward_request (call : option exn) (others : Router -> Router)
    (service : ServiceInfo) (request : RouteRequest) (r : Router)
  : result RouteResponse * Router :=
  let r1 := with_connections (acquire (name service) (active_connections r)) r in
  let r2 := others r1 in
  let res := forward_body call service request in
  match release (name service) (active_connections r2) with
  | inl c => (res, with_connections c r2)
  | inr e => (raise e, r2)
  end.

Definition failure (msg : string) (request : RouteRequest) : RouteResponse :=
  {| success := false; data := None; error := Some msg;
     service_name := None; response_request_id := request_id request |}.

(** The [try] block of [route]. *)
Definition route_body (rnd : nat) (call : option exn)
    (others : Router -> Router) (request : RouteRequest) (r : Router)
  : result RouteResponse * Router :=
  let no_criteria r' :=
    (ret (failure "No target service or capability specified" request), r') in
  match truthy (target_service request) with
  | Some target =>
      match get_service target (registry r) with
      | Some service =>
          if decide (status service = HEALTHY)
          then forward_request call others service request r
          else (ret (failure ("Service " ++ target ++ " not available")
                             request), r)
      | None =>
          (ret (failure ("Service " ++ target ++ " not available") request),
           r)
      end
  | None =>
      match truthy (capability request) with
      | Some cap =>
          match get_services_by_capability cap (registry r) with
          | [] =>
              (ret (failure ("No services available for capability: " ++ cap)
                            request), r)
          | services =>
              let (pick, st) :=
                run_strategy (load_balancer r) rnd services
                             (load_balancer_state r) in
              let r' := with_state st r in
              match pick with
              | Some service => forward_request call others service request r'
              | None => no_criteria r'
              end
          end
      | None => no_criteria r
      end
  end.

(** [route]: [except Exception as e] turns an [Exception] into a failed
    response carrying [str(e)]; anything else propagates. *)
Definition route (rnd : nat) (call : option exn) (others : Router -> Router)
    (request : RouteRequest) (r : Router) : result RouteResponse * Router :=
  match route_body rnd call others request r with
  | (inr e, r') =>
      if is_Exception e then (ret (failure (str e) request), r')
      else (raise e, r')
  | ok => ok
  end.

End Router.

(** ** main.py: the HTTP handlers *)

Module Hub.

Import Registry Exn Router.

(** [HubConfig]: the three settings the hub reads at start-up, with their
    defaults. *)
Record HubConfig : Type := mkHubConfig {
  cfg_heartbeat_interval : Z;
  cfg_health_check_interval : Z;
  cfg_load_balancer_strategy : string
}.

Definition default_config : HubConfig :=
  {| cfg_heartbeat_interval := 30; cfg_health_check_interval := 10;
     cfg_load_balancer_strategy := "least_connections" |}.

(** [lifespan]: the registry and the router that shares it. *)
Definition lifespan (config : HubConfig) : Router :=
  Router.init (Registry.init (cfg_heartbeat_interval config)
                             (cfg_health_check_interval config))
              (cfg_load_balancer_strategy config).

(** A parsed JSON value. *)
#[local] Unset Elimination Schemes.
Inductive json : Type :=
| JNull
| JBool (b : bool)
| JInt (z : Z)
| JFloat (q : Q)
| JStr (s : string)
| JList (l : list json)
| JDict (d : list (string * json)).
#[local] Set Elimination Schemes.

(** The value under ["name"] in a registration body.  The handler checks
    nothing about it, and it becomes a dict key: a string is the declared
    type; a JSON array or object is unhashable. *)
Inductive name_value : Type :=
| Name (s : string)
| UnhashableList (l : list json)
| UnhashableDict (d : list (string * json)).

Definition hashable (n : name_value) : bool :=
  match n with Name _ => true | _ => false end.

(** The JSON body of [POST /register]; a field is [None] when its key is
    absent.  [host], [port], [capabilities] and [metadata] are only stored,
    and have the types the dataclass declares. *)
Record RegisterBody : Type := mkRegisterBody {
  body_name : option name_value;
  body_host : option string;
  body_port : option Z;
  body_capabilities : option (list string);
  body_metadata : option (list (string * string))
}.

(** The JSON body of [POST /route]. *)
Record RouteBody : Type := mkRouteBody {
  body_method : option string;
  body_params : option (list (string * string));
  body_capability : option string;
  body_target_service : option string;
  body_request_id : option string
}.

(** [body[key]]: a [KeyError] when the key is absent. *)
Definition field {A : Type} (key : string) (v : option A) : result A :=
  match v with
  | Some a => ret a
  | None => raise (KeyError key)
  end.

(** The two [except] clauses shared by [register_service] and
    [route_request]: a [KeyError] becomes a 400, any other [Exception]
    (an [HTTPException] raised inside the [try] block included) a 500. *)
Definition except_clauses {A : Type} (res : result A) : result A :=
  match res with
  | inl a => ret a
  | inr (KeyError k) =>
      raise (HTTPException 400
               ("Missing required field: " ++ str (KeyError k)))
  | inr e =>
      if is_Exception e then raise (HTTPException 500 (str e)) else raise e
  end.

(** The status line the framework sends: 200 for a returned body, the
    status of a raised [HTTPException]. *)
Definition http_status {A : Type} (res : result A) : option Z :=
  match res with
  | inl _ => Some 200
  | inr (HTTPException c _) => Some c
  | inr _ => None
  end.

(** [registry.register(service)] as the handler calls it, [mk] being the
    object built but for its name.  Under a string the object is stored.
    For an unhashable name the subscript assignment raises [TypeError]; the
    [except] branch of [register] logs it and returns [False]: nothing is
    stored and the monitor task is not started. *)
Definition register_named (n : name_value) (mk : string -> ServiceInfo)
    (r : ServiceRegistry) : bool * ServiceRegistry :=
  match n with
  | Name s => Registry.register (mk s) r
  | UnhashableList _ | UnhashableDict _ => (false, r)
  end.

(** [service.name] in the answer; it is read only after a successful
    registration. *)
Definition name_text (n : name_value) : string :=
  match n with
  | Name s => s
  | UnhashableList _ | UnhashableDict _ => ""
  end.

(** [register_service] ([POST /register]) *)
Definition register_service (now : Q) (service_data : RegisterBody)
    (hub : Router) : result (list (string * string)) * Router :=
  let construct : result (name_value * (string -> ServiceInfo)) :=
    letE n := field "name" (body_name service_data) in
    letE h := field "host" (body_host service_data) in
    letE p := field "port" (body_port service_data) in
    ret (n,
         fun s =>
           new_ServiceInfo now s h p
             (default [] (body_capabilities service_data))
             (Some (default [] (body_metadata service_data)))) in
  match construct with
  | inr e => (except_clauses (raise e), hub)
  | inl (n, mk) =>
      let (ok, reg) := register_named n mk (registry hub) in
      let res : result (list (string * string)) :=
        if ok then ret [("status", "registered"); ("service", name_text n)]
        else raise (HTTPException 400 "Registration failed") in
      (except_clauses res, with_registry reg hub)
  end.

(** [deregister_service] ([POST /deregister/{service_name}]) *)
Definition deregister_service (service_name : string) (hub : Router)
  : result (list (string * string)) * Router :=
  match Registry.deregister service_name (registry hub) with
  | inr e => (raise e, hub)
  | inl (true, reg) =>
      (ret [("status", "deregistered"); ("service", service_name)],
       with_registry reg hub)
  | inl (false, reg) =>
      (raise (HTTPException 404 "Service not found"), with_registry reg hub)
  end.

(** [heartbeat] ([POST /heartbeat/{service_name}]) *)
Definition heartbeat (now : Q) (service_name : string) (hub : Router)
  : result (list (string * string)) * Router :=
  match Registry.update_heartbeat now service_name (registry hub) with
  | inr e => (raise e, hub)
  | inl (true, reg) => (ret [("status", "ok")], with_registry reg hub)
  | inl (false, reg) =>
      (raise (HTTPException 404 "Service not found"), with_registry reg hub)
  end.

(** [route_request] ([POST /route]); a successful response is returned as
    the record it is read from. *)
Definition route_request (rnd : nat) (call : option exn)
    (others : Router -> Router) (request_data : RouteBody) (hub : Router)
  : result RouteResponse * Router :=
  match field "method" (body_method request_data) with
  | inr e => (except_clauses (raise e), hub)
  | inl m =>
      let request :=
        {| method := m;
           params := default [] (body_params request_data);
           capability := body_capability request_data;
           target_service := body_target_service request_data;
           request_id := body_request_id request_data |} in
      let (res, hub') := Router.route rnd call others request hub in
      let out : result RouteResponse :=
        letE response := res in
        if success response then ret response
        else raise (HTTPException 503 (default "" (error response))) in
      (except_clauses out, hub')
  end.

End Hub.

(** ** The event loop on the registry

    The hub runs on one event loop: a task gives up control only at an
    [await].  [register], [deregister] and [update_heartbeat] have no
    [await] in their bodies, and a cycle of [_monitor_health] has none before
    its [sleep], so each of them is one atomic step on the shared registry,
    and a concurrent execution is a sequence of such steps in the order the
    loop happened to schedule them. *)

Module EventLoop.

Import Registry Exn.

Inductive task : Type :=
| Register (service : ServiceInfo)
| Deregister (service_name : string)
| Heartbeat (now : Q) (service_name : string)
| MonitorCycle (now : Q).

(** What a task returns to its caller, and the registry it leaves. *)
Definition step (t : task) (r : ServiceRegistry)
  : result (option bool * ServiceRegistry) :=
  match t with
  | Register s =>
      let (b, r') := register s r in ret (Some b, r')
  | Deregister n =>
      letE out := deregister n r in ret (Some (fst out), snd out)
  | Heartbeat now n =>
      letE out := update_heartbeat now n r in ret (Some (fst out), snd out)
  | MonitorCycle now => ret (None, monitor_cycle now r)
  end.

(** A schedule run from registry [r]; an exception escaping a task ends
    the run. *)
Fixpoint run (schedule : list task) (r : ServiceRegistry)
  : result (list (option bool) * ServiceRegistry) :=
  match schedule with
  | [] => ret ([], r)
  | t :: rest =>
      letE out := step t r in
      letE outs := run rest (snd out) in
      ret (fst out :: fst outs, snd outs)
  end.

End EventLoop.

(** ** Shorthands and concrete hubs used in the statements *)

Module Scenario.

Import Registry Exn Router Router.LoadBalancer Hub.

(** A request body with the three required fields. *)
Definition valid_body (n h : string) (p : Z) (caps : option (list string))
    (md : option (list (string * string))) : RegisterBody :=
  {| body_name := Some (Name n); body_host := Some h; body_port := Some p;
     body_capabilities := caps; body_metadata := md |}.

(** The record [register_service] builds from such a body. *)
Definition record_of (now : Q) (n h : string) (p : Z)
    (caps : option (list string)) (md : option (list (string * string)))
  : ServiceInfo :=
  new_ServiceInfo now n h p (default [] caps) (Some (default [] md)).

(** A registry with the default intervals and one service, whose last
    heartbeat came at time 0. *)
Definition one_service : ServiceRegistry :=
  {| services :=
       [("svc1",
         set_status HEALTHY
           (new_ServiceInfo 0 "svc1" "10.0.0.1" 9001 [] None))];
     heartbeat_interval := 30; health_check_interval := 10;
     health_check_task := true |}.

(** A registry with two workers advertising [search]. *)
Definition two_services : ServiceRegistry :=
  {| services :=
       [("svc1", new_ServiceInfo 0 "svc1" "10.0.0.1" 9001 ["search"] None);
        ("svc2", new_ServiceInfo 0 "svc2" "10.0.0.2" 9002 ["search"] None)];
     heartbeat_interval := 30; health_check_interval := 10;
     health_check_task := true |}.

(** [n] selections in a row over the same candidates, the state dict
    carried from one call to the next. *)
Fixpoint select_many (n : nat) (services : list ServiceInfo) (state : LBState)
  : list (option ServiceInfo) :=
  match n with
  | O => []
  | S n' =>
      let (pick, state') := round_robin services state in
      pick :: select_many n' services state'
  end.

(** The connection count [least_connections] reads for a service. *)
Definition count_of (conns : gmap string Z) (s : ServiceInfo) : Z :=
  default 0 (conns !! name s).

(** Every worker of the list registers and sends its first heartbeat. *)
Definition bring_up (now : Q) (workers : list (string * list string))
    (hub : Router) : Router :=
  fold_left
    (fun hub w =>
       snd (heartbeat now (fst w)
              (snd (register_service now
                      (valid_body (fst w) "10.0.0.1" 9000 (Some (snd w)) None)
                      hub))))
    workers hub.

Definition direct (target : string) : RouteRequest :=
  {| method := "ping"; params := []; capability := None;
     target_service := Some target; request_id := None |}.

Definition by_capability (cap : string) : RouteRequest :=
  {| method := "ping"; params := []; capability := Some cap;
     target_service := None; request_id := None |}.

(** The hub with its default configuration (strategy
    [least_connections]), two healthy workers A and B advertising [chat],
    and one request to B served and finished. *)
Definition idle_hub : Router :=
  snd (route 0 None id (direct "B")
         (bring_up 1 [("A", ["chat"]); ("B", ["chat"])]
                   (lifespan default_config))).

(** The same hub while two requests to A are suspended in the [await] of
    [_forward_request]: each has run its increment and not yet its
    [finally]. *)
Definition busy_hub : Router :=
  with_connections
    (acquire "A" (acquire "A" (active_connections idle_hub))) idle_hub.

(** A hub configured for round-robin, with two workers for [search] and
    two for [chat]. *)
Definition round_robin_hub : Router :=
  bring_up 1 [("a1", ["search"]); ("a2", ["search"]);
              ("b1", ["chat"]); ("b2", ["chat"])]
           (lifespan {| cfg_heartbeat_interval := 30;
                        cfg_health_check_interval := 10;
                        cfg_load_balancer_strategy := "round_robin" |}).

(** The name of the worker a routed request was served by. *)
Definition served_by (out : result RouteResponse * Router) : option string :=
  match fst out with
  | inl response => service_name response
  | inr _ => None
  end.

(** A [POST /route] body with a [method] and nothing else. *)
Definition bare_body : RouteBody :=
  {| body_method := Some "ping"; body_params := None;
     body_capability := None; body_target_service := None;
     body_request_id := None |}.

End Scenario.

(** ** router.py and main.py: the read-only views *)

Module Observability.

Import Registry Exn Router.

(** The dict [get_routing_stats] returns: copies of the two router dicts
    and the two counts. *)
Record RoutingStats : Type := mkRoutingStats {
  stat_active_connections : gmap string Z;
  stat_load_balancer_state : LBState;
  stat_healthy_services : nat;
  stat_total_services : nat
}.

(** [Router.get_routing_stats] *)
Definition get_routing_stats (r : Router) : RoutingStats :=
  {| stat_active_connections := active_connections r;
     stat_load_balancer_state := load_balancer_state r;
     stat_healthy_services := length (get_healthy_services (registry r));
     stat_total_services := length (services (registry r)) |}.

(** [get_services_by_capability] of main.py ([GET /services/{capability}]):
    the capability and the [name], [host], [port] of each service found;
    [registry] is [None] until [lifespan] has run. *)
Definition services_by_capability (capability : string)
    (hub : option Router) : string * list (string * string * Z) :=
  let found :=
    match hub with
    | Some h => get_services_by_capability capability (registry h)
    | None => []
    end in
  (capability, map (fun s => (name s, host s, port s)) found).

End Observability.

(** ** Invariants of the directory *)

Module Invariant.

Import Registry.

(** Every record is stored under its own name. *)
Definition keyed (d : list (string * ServiceInfo)) : Prop :=
  Forall (fun kv => name (snd kv) = fst kv) d.

(** The directory is a dict (no key twice) of records stored under their
    names. *)
Definition well_formed (r : ServiceRegistry) : Prop :=
  NoDup (PyDict.keys (services r)) /\ keyed (services r).

Definition is_register (t : EventLoop.task) : bool :=
  match t with EventLoop.Register _ => true | _ => false end.

End Invariant.

(** * Properties *)

(** ** Dictionaries *)

Module PyDictFacts.

Import PyDict.

Section Facts.
Context {V : Type}.
Implicit Types (d : list (string * V)) (k : string) (v : V) (f : V -> V).

Lemma get_set_eq k v d : get k (set k v d) = Some v.
Proof.
  induction d as [|[k' v'] d IH]; simpl.
  - by rewrite decide_True.
  - destruct (decide (k = k')) as [->|Hne]; simpl.
    + by rewrite decide_True.
    + by rewrite decide_False.
Qed.

Lemma get_set_ne k k' v d : k <> k' -> get k' (set k v d) = get k' d.
Proof.
  intros Hne. induction d as [|[k0 v0] d IH]; simpl.
  - rewrite decide_False; [done | congruence].
  - destruct (decide (k = k0)) as [->|Hk]; simpl.
    + rewrite !decide_False; [done | congruence | congruence].
    + by rewrite IH.
Qed.

Lemma get_remove_eq k d : get k (remove k d) = None.
Proof.
  induction d as [|[k' v'] d IH]; simpl; [done|].
  destruct (decide (k = k')); simpl; [done|].
  by rewrite decide_False.
Qed.

Lemma get_remove_ne k k' d : k <> k' -> get k' (remove k d) = get k' d.
Proof.
  intros Hne. induction d as [|[k0 v0] d IH]; simpl; [done|].
  destruct (decide (k = k0)) as [->|Hk]; simpl.
  - rewrite IH. rewrite decide_False; [done | congruence].
  - by rewrite IH.
Qed.

Lemma keys_remove k d : k ∉ keys (remove k d).
Proof.
  induction d as [|[k' v'] d IH]; simpl.
  - apply not_elem_of_nil.
  - destruct (decide (k = k')); simpl; [done|].
    rewrite not_elem_of_cons. done.
Qed.

Lemma get_update k k' f d :
  get k' (update k f d) = if decide (k = k') then f <$> get k d else get k' d.
Proof.
  induction d as [|[k0 v0] d IH]; simpl.
  - by destruct (decide (k = k')).
  - destruct (decide (k = k0)) as [->|Hk]; simpl.
    + destruct (decide (k0 = k')) as [->|Hne].
      * by rewrite decide_True.
      * destruct (decide (k' = k0)); [congruence | done].
    + destruct (decide (k' = k0)) as [->|Hk'].
      * by rewrite decide_False.
      * apply IH.
Qed.

Lemma keys_update k f d : keys (update k f d) = keys d.
Proof.
  induction d as [|[k0 v0] d IH]; simpl; [done|].
  destruct (decide (k = k0)); simpl; [done|]. by rewrite IH.
Qed.

Lemma mem_update k k' f d : mem k' (update k f d) = mem k' d.
Proof.
  unfold mem. rewrite get_update.
  destruct (decide (k = k')) as [->|]; [|done].
  by destruct (get k' d).
Qed.

Lemma remove_update k f d : remove k (update k f d) = remove k d.
Proof.
  induction d as [|[k0 v0] d IH]; simpl; [done|].
  destruct (decide (k = k0)) as [->|Hk]; simpl.
  - by rewrite decide_True.
  - rewrite decide_False; [|done]. by rewrite IH.
Qed.

Lemma remove_absent k d : get k d = None -> remove k d = d.
Proof.
  induction d as [|[k0 v0] d IH]; simpl; [done|].
  destruct (decide (k = k0)); [done|]. intros H. by rewrite IH.
Qed.

Lemma get_update_all k f d : get k (update_all f d) = f <$> get k d.
Proof.
  induction d as [|[k0 v0] d IH]; simpl; [done|].
  destruct (decide (k = k0)); [done | apply IH].
Qed.

Lemma keys_update_all f d : keys (update_all f d) = keys d.
Proof.
  unfold keys, update_all. rewrite map_map. simpl. done.
Qed.

Lemma values_update_all f d : values (update_all f d) = map f (values d).
Proof.
  unfold values, update_all. rewrite !map_map. done.
Qed.

(** An assignment to a key the dict has keeps every key where it was; a
    new key goes to the end. *)
Lemma keys_set k v d :
  keys (set k v d) = if mem k d then keys d else (keys d ++ [k])%list.
Proof.
  unfold mem. induction d as [|[k0 v0] d IH]; simpl; [done|].
  destruct (decide (k = k0)) as [->|Hk]; simpl; [done|].
  rewrite IH. by destruct (get k d).
Qed.

Lemma get_None_keys k d : get k d = None <-> k ∉ keys d.
Proof.
  induction d as [|[k0 v0] d IH]; simpl.
  - split; [intros _; apply not_elem_of_nil | done].
  - rewrite not_elem_of_cons. destruct (decide (k = k0)) as [->|Hk].
    + split; [done | intros [? _]; done].
    + rewrite IH. tauto.
Qed.

(** The keys of a dict are pairwise distinct, and every operation keeps
    them so. *)
Lemma NoDup_set k v d : NoDup (keys d) -> NoDup (keys (set k v d)).
Proof.
  intros Hd. rewrite keys_set. unfold mem.
  destruct (get k d) eqn:Hg; [done|].
  apply NoDup_app. split_and!; [done | | apply NoDup_singleton].
  intros x Hx Hx'. apply list_elem_of_singleton in Hx' as ->.
  by apply get_None_keys in Hg.
Qed.

Lemma keys_remove_subset k k' d : k' ∈ keys (remove k d) -> k' ∈ keys d.
Proof.
  induction d as [|[k0 v0] d IH]; simpl; [done|].
  destruct (decide (k = k0)); simpl.
  - intros H. apply elem_of_cons. right. by apply IH.
  - rewrite !elem_of_cons. intros [->|H]; [by left | right; by apply IH].
Qed.

Lemma NoDup_remove k d : NoDup (keys d) -> NoDup (keys (remove k d)).
Proof.
  induction d as [|[k0 v0] d IH]; simpl; [done|].
  rewrite NoDup_cons. intros [Hk0 Hd].
  destruct (decide (k = k0)); simpl; [by apply IH|].
  rewrite NoDup_cons. split; [|by apply IH].
  intros H. apply Hk0. by eapply keys_remove_subset.
Qed.

End Facts.

End PyDictFacts.

(** ** The registry *)

Module RegistryFacts.

Import Registry Exn.

Lemma with_services_same (r : ServiceRegistry) :
  with_services (services r) r = r.
Proof. by destruct r. Qed.

Lemma update_absent {V : Type} (k : string) (f : V -> V)
    (d : list (string * V)) :
  PyDict.get k d = None -> PyDict.update k f d = d.
Proof.
  induction d as [|[k0 v0] d IH]; simpl; [done|].
  destruct (decide (k = k0)); [done|]. intros H. by rewrite IH.
Qed.

(** [deregister] never raises: it answers whether the name was there, and
    leaves the directory without it. *)
Lemma deregister_total (n : string) (r : ServiceRegistry) :
  deregister n r =
  ret (PyDict.mem n (services r),
       with_services (PyDict.remove n (services r)) r).
Proof.
  unfold deregister, PyDict.del.
  destruct (PyDict.mem n (services r)) eqn:Hm; simpl; [done|].
  unfold PyDict.mem in Hm.
  destruct (PyDict.get n (services r)) eqn:Hg; [done|].
  by rewrite PyDictFacts.remove_absent, with_services_same.
Qed.

(** [update_heartbeat] never raises either. *)
Lemma update_heartbeat_total (now : Q) (n : string) (r : ServiceRegistry) :
  update_heartbeat now n r =
  ret (PyDict.mem n (services r),
       with_services
         (PyDict.update n (set_status HEALTHY)
            (PyDict.update n (set_last_heartbeat now) (services r))) r).
Proof.
  unfold update_heartbeat, PyDict.setattr.
  destruct (PyDict.mem n (services r)) eqn:Hm; simpl.
  - rewrite PyDictFacts.mem_update, Hm. done.
  - unfold PyDict.mem in Hm.
    destruct (PyDict.get n (services r)) eqn:Hg; [done|].
    rewrite (update_absent n (set_last_heartbeat now)) by done.
    rewrite (update_absent n (set_status HEALTHY)) by done.
    by rewrite with_services_same.
Qed.

Lemma get_service_heartbeat (now : Q) (n m : string) (r : ServiceRegistry) :
  get_service m
    (with_services
       (PyDict.update n (set_status HEALTHY)
          (PyDict.update n (set_last_heartbeat now) (services r))) r) =
  if decide (n = m)
  then (fun s => set_status HEALTHY (set_last_heartbeat now s))
         <$> get_service n r
  else get_service m r.
Proof.
  unfold get_service. simpl. rewrite !PyDictFacts.get_update.
  destruct (decide (n = m)) as [->|]; [|done].
  rewrite decide_True by done. by destruct (PyDict.get m (services r)).
Qed.

Lemma Qgtb_spec (a b : Q) : Qgtb a b = true <-> (b < a)%Q.
Proof.
  unfold Qgtb. rewrite (Qgt_alt a b).
  destruct (a ?= b)%Q; split; congruence.
Qed.

Lemma Qgtb_false (a b : Q) : Qgtb a b = false <-> (a <= b)%Q.
Proof.
  split.
  - intros H. apply Qnot_lt_le. intros Hlt.
    apply Qgtb_spec in Hlt. congruence.
  - intros H. destruct (Qgtb a b) eqn:E; [|done].
    apply Qgtb_spec in E. by apply Qlt_not_le in E.
Qed.

(** The three bands of the health monitor, on one service. *)
Lemma reclassify_bands (now : Q) (hb : Z) (s : ServiceInfo) :
  let elapsed := (now - last_heartbeat s)%Q in
  ((inject_Z (2 * hb) < elapsed)%Q ->
     reclassify now hb s = set_status UNHEALTHY s) /\
  ((inject_Z hb < elapsed)%Q /\ (elapsed <= inject_Z (2 * hb))%Q ->
     reclassify now hb s = set_status UNKNOWN s) /\
  ((elapsed <= inject_Z hb)%Q /\ (elapsed <= inject_Z (2 * hb))%Q ->
     reclassify now hb s = s).
Proof.
  simpl. unfold reclassify. rewrite (Z.mul_comm hb 2).
  split_and!.
  - intros H. apply Qgtb_spec in H. by rewrite H.
  - intros [H1 H2]. apply Qgtb_spec in H1. apply Qgtb_false in H2.
    by rewrite H2, H1.
  - intros [H1 H2]. apply Qgtb_false in H1. apply Qgtb_false in H2.
    by rewrite H2, H1.
Qed.

(** The directory stays a dict: whatever task the event loop runs, the
    keys remain pairwise distinct. *)
Lemma step_keys_distinct (t : EventLoop.task) (r : ServiceRegistry)
    (out : option bool * ServiceRegistry) :
  NoDup (PyDict.keys (services r)) ->
  EventLoop.step t r = ret out ->
  NoDup (PyDict.keys (services (snd out))).
Proof.
  intros Hr. destruct t as [s|n|now n|now]; simpl.
  - intros [= <-]. simpl. by apply PyDictFacts.NoDup_set.
  - rewrite deregister_total. simpl. intros [= <-]. simpl.
    by apply PyDictFacts.NoDup_remove.
  - rewrite update_heartbeat_total. simpl. intros [= <-]. simpl.
    by rewrite !PyDictFacts.keys_update.
  - intros [= <-]. simpl. by rewrite PyDictFacts.keys_update_all.
Qed.

End RegistryFacts.

(** ** The hub *)

Module HubFacts.

Import Registry Router.

Lemma with_registry_same (hub : Router) :
  with_registry (registry hub) hub = hub.
Proof. by destruct hub. Qed.

End HubFacts.

(** ** The service directory: registration, heartbeat, replacement *)

Module DirectorySpec.

Import Registry Exn Router Hub Scenario.

Lemma register_service_valid (now : Q) (n h : string) (p : Z)
    (caps : option (list string)) (md : option (list (string * string)))
    (hub : Router) :
  register_service now (valid_body n h p caps md) hub =
  (ret [("status", "registered"); ("service", n)],
   with_registry
     (snd (Registry.register (record_of now n h p caps md) (registry hub)))
     hub).
Proof. reflexivity. Qed.

Lemma get_service_register_eq (s : ServiceInfo) (r : ServiceRegistry) :
  get_service (name s) (snd (Registry.register s r)) = Some s.
Proof. unfold get_service. simpl. apply PyDictFacts.get_set_eq. Qed.

Lemma get_service_register_ne (s : ServiceInfo) (m : string)
    (r : ServiceRegistry) :
  name s <> m ->
  get_service m (snd (Registry.register s r)) = get_service m r.
Proof. intros H. unfold get_service. simpl. by apply PyDictFacts.get_set_ne. Qed.

(** [POST /register] with the three required fields present and a JSON
    array as name: the answer is not a success, and nothing is
    registered. *)
Lemma register_service_unhashable_name :
  let b := {| body_name := Some (UnhashableList [JStr "svc"]);
              body_host := Some "10.0.0.1"; body_port := Some 9000;
              body_capabilities := None; body_metadata := None |} in
  let out := register_service 0 b (lifespan default_config) in
  body_name b <> None /\ body_host b <> None /\ body_port b <> None /\
  http_status (fst out) <> Some 200 /\
  (forall resp, fst out <> ret resp) /\
  services (registry (snd out)) = [].
Proof. vm_compute. repeat split; discriminate. Qed.

(** C3, amended.  [POST /register] always sends a status, 200 or an
    error status.  It answers 400 whenever [name], [host] or [port] is
    missing from the body.  It fails exactly when one of them is missing or
    the name is unhashable (a JSON array or object), and then leaves the hub
    as it was.  With the three fields present and a string as name it
    answers 200 with [{status: registered, service: name}]; the directory
    then holds, under [name], the record built from the body with
    [last_heartbeat] set to the current time; every other entry is
    untouched; a name already present keeps its position, a new one is
    appended. *)
Theorem register_service_outcomes (now : Q) (b : RegisterBody)
    (hub : Router) :
  let out := register_service now b hub in
  let missing :=
    body_name b = None \/ body_host b = None \/ body_port b = None in
  let unhashable :=
    exists v, body_name b = Some v /\ hashable v = false in
  (exists c, http_status (fst out) = Some c /\
             (c = 200 \/ 400 <= c <= 599)) /\
  (missing -> http_status (fst out) = Some 400) /\
  (http_status (fst out) <> Some 200 <-> missing \/ unhashable) /\
  (http_status (fst out) <> Some 200 -> snd out = hub) /\
  (forall n h p,
     body_name b = Some (Name n) -> body_host b = Some h ->
     body_port b = Some p ->
     let s := record_of now n h p (body_capabilities b) (body_metadata b) in
     fst out = ret [("status", "registered"); ("service", n)] /\
     http_status (fst out) = Some 200 /\
     get_service n (registry (snd out)) = Some s /\
     name s = n /\ host s = h /\ port s = p /\
     capabilities s = default [] (body_capabilities b) /\
     metadata s = default [] (body_metadata b) /\
     status s = UNKNOWN /\
     last_heartbeat s = now /\
     (forall m, m <> n ->
        get_service m (registry (snd out)) = get_service m (registry hub)) /\
     PyDict.keys (services (registry (snd out))) =
       if PyDict.mem n (services (registry hub))
       then PyDict.keys (services (registry hub))
       else (PyDict.keys (services (registry hub)) ++ [n])%list).
Proof.
  cbv zeta.
  destruct b as [[v|] [h|] [p|] caps md]; simpl;
    try (split_and!;
         [ exists 400; split; [done | right; lia]
         | done
         | split; [intros _; left; tauto | discriminate]
         | done
         | intros ? ? ? ? ? ?; simplify_eq ]).
  destruct v as [n|l|d]; simpl.
  - split_and!.
    + exists 200. split; [done | by left].
    + intros [?|[?|?]]; done.
    + split; [done|].
      intros [[?|[?|?]]|(v & Hv & Hh)]; try done. by simplify_eq.
    + done.
    + intros n' h' p' ? ? ?. simplify_eq. split_and!; try done.
      * apply PyDictFacts.get_set_eq.
      * intros m Hm. apply PyDictFacts.get_set_ne. congruence.
      * apply PyDictFacts.keys_set.
  - split_and!.
    + exists 500. split; [done | right; lia].
    + intros [?|[?|?]]; done.
    + split; [|discriminate]. intros _. right. by eexists.
    + intros _. apply HubFacts.with_registry_same.
    + intros ? ? ? ? ? ?. simplify_eq.
  - split_and!.
    + exists 500. split; [done | right; lia].
    + intros [?|[?|?]]; done.
    + split; [|discriminate]. intros _. right. by eexists.
    + intros _. apply HubFacts.with_registry_same.
    + intros ? ? ? ? ? ?. simplify_eq.
Qed.

(** C5.  After a valid [POST /register] the record found under the name
    has status [UNKNOWN]; a heartbeat for the name then answers
    [{status: ok}] and leaves the record [HEALTHY], stamped with the time of
    the heartbeat and otherwise as registered. *)
Theorem status_unknown_until_first_heartbeat (now now' : Q) (n h : string)
    (p : Z) (caps : option (list string))
    (md : option (list (string * string))) (hub : Router) :
  let hub1 := snd (register_service now (valid_body n h p caps md) hub) in
  let beat := heartbeat now' n hub1 in
  (exists s, get_service n (registry hub1) = Some s /\ status s = UNKNOWN) /\
  fst beat = ret [("status", "ok")] /\
  get_service n (registry (snd beat)) =
    Some (set_status HEALTHY
            (set_last_heartbeat now' (record_of now n h p caps md))) /\
  (exists s',
     get_service n (registry (snd beat)) = Some s' /\
     status s' = HEALTHY /\
     last_heartbeat s' = now' /\
     name s' = n /\ host s' = h /\ port s' = p /\
     capabilities s' = default [] caps /\
     metadata s' = default [] md).
Proof.
  cbv zeta. rewrite register_service_valid. simpl snd.
  assert (Hbeat :
    get_service n
      (registry
         (snd (heartbeat now' n
                 (with_registry
                    (snd (Registry.register (record_of now n h p caps md)
                            (registry hub))) hub)))) =
    Some (set_status HEALTHY
            (set_last_heartbeat now' (record_of now n h p caps md)))).
  { unfold heartbeat. rewrite RegistryFacts.update_heartbeat_total. simpl.
    unfold PyDict.mem. rewrite PyDictFacts.get_set_eq. simpl.
    unfold get_service. simpl. rewrite !PyDictFacts.get_update.
    rewrite !decide_True by done. by rewrite PyDictFacts.get_set_eq. }
  split_and!.
  - eexists. split; [apply PyDictFacts.get_set_eq | done].
  - unfold heartbeat. rewrite RegistryFacts.update_heartbeat_total. simpl.
    unfold PyDict.mem. by rewrite PyDictFacts.get_set_eq.
  - exact Hbeat.
  - eexists. split; [exact Hbeat|]. by split_and!.
Qed.

(** C8.  Two valid registrations under one name: the record found
    afterwards is the one built from the second body alone (host, port,
    capabilities and metadata of the second, nothing of the first), and the
    directory has the same keys, in the same order, as after the first. *)
Theorem register_twice_replaces (now1 now2 : Q) (n h1 h2 : string)
    (p1 p2 : Z) (caps1 caps2 : option (list string))
    (md1 md2 : option (list (string * string))) (hub : Router) :
  let hub1 := snd (register_service now1 (valid_body n h1 p1 caps1 md1) hub) in
  let hub2 := snd (register_service now2 (valid_body n h2 p2 caps2 md2) hub1) in
  get_service n (registry hub2) = Some (record_of now2 n h2 p2 caps2 md2) /\
  (forall s, get_service n (registry hub2) = Some s ->
     host s = h2 /\ port s = p2 /\ capabilities s = default [] caps2 /\
     metadata s = default [] md2) /\
  PyDict.keys (services (registry hub2)) =
  PyDict.keys (services (registry hub1)).
Proof.
  cbv zeta. rewrite !register_service_valid. simpl.
  assert (Hget : get_service n
            (snd (Registry.register (record_of now2 n h2 p2 caps2 md2)
               (snd (Registry.register (record_of now1 n h1 p1 caps1 md1)
                  (registry hub))))) =
          Some (record_of now2 n h2 p2 caps2 md2)).
  { apply (get_service_register_eq (record_of now2 n h2 p2 caps2 md2)). }
  simpl in Hget. split_and!.
  - exact Hget.
  - intros s Hs. rewrite Hget in Hs. by simplify_eq.
  - rewrite PyDictFacts.keys_set. unfold PyDict.mem.
    by rewrite PyDictFacts.get_set_eq.
Qed.

End DirectorySpec.

(** ** The health monitor *)

Module HealthMonitorSpec.

Import Registry Exn Scenario.

Lemma reclassify_only_status (now : Q) (hb : Z) (s : ServiceInfo) :
  exists st, reclassify now hb s = set_status st s.
Proof.
  unfold reclassify.
  destruct (Qgtb _ _); [by eexists|].
  destruct (Qgtb _ _); [by eexists|].
  exists (status s). by destruct s.
Qed.

(** C4.  One cycle of the monitor, for a non-negative heartbeat interval
    [hb]: the directory keeps its keys and their order, and every entry is
    replaced by its reclassification at the current time, which differs from
    it in status at most; with [elapsed = now - last_heartbeat], the status
    becomes [UNHEALTHY] when [elapsed > 2 * hb], [UNKNOWN] when
    [hb < elapsed <= 2 * hb], and the entry is left as it is when
    [elapsed <= hb].  For [hb = 30] an entry is [UNKNOWN] at [elapsed = 31]
    and [UNHEALTHY] at [elapsed = 61]. *)
Theorem monitor_cycle_bands (now : Q) (r : ServiceRegistry) :
  0 <= heartbeat_interval r ->
  let hb := heartbeat_interval r in
  let r' := monitor_cycle now r in
  PyDict.keys (services r') = PyDict.keys (services r) /\
  (forall n, get_service n r' = reclassify now hb <$> get_service n r) /\
  (forall s,
     let elapsed := (now - last_heartbeat s)%Q in
     (exists st, reclassify now hb s = set_status st s) /\
     ((inject_Z (2 * hb) < elapsed)%Q ->
        status (reclassify now hb s) = UNHEALTHY) /\
     ((inject_Z hb < elapsed)%Q /\ (elapsed <= inject_Z (2 * hb))%Q ->
        status (reclassify now hb s) = UNKNOWN) /\
     ((elapsed <= inject_Z hb)%Q -> reclassify now hb s = s)) /\
  (hb = 30 ->
   forall s,
     ((now - last_heartbeat s == 31)%Q ->
        status (reclassify now hb s) = UNKNOWN) /\
     ((now - last_heartbeat s == 61)%Q ->
        status (reclassify now hb s) = UNHEALTHY)).
Proof.
  intros Hhb. cbv zeta.
  assert (Hbands : forall s,
     ((inject_Z (2 * heartbeat_interval r) < now - last_heartbeat s)%Q ->
        status (reclassify now (heartbeat_interval r) s) = UNHEALTHY) /\
     ((inject_Z (heartbeat_interval r) < now - last_heartbeat s)%Q /\
      (now - last_heartbeat s <= inject_Z (2 * heartbeat_interval r))%Q ->
        status (reclassify now (heartbeat_interval r) s) = UNKNOWN) /\
     ((now - last_heartbeat s <= inject_Z (heartbeat_interval r))%Q ->
        reclassify now (heartbeat_interval r) s = s)).
  { intros s.
    destruct (RegistryFacts.reclassify_bands now (heartbeat_interval r) s)
      as (H1 & H2 & H3).
    split_and!.
    - intros H. by rewrite H1.
    - intros H. by rewrite H2.
    - intros H. apply H3. split; [done|].
      eapply Qle_trans; [exact H|].
      rewrite <- Zle_Qle. lia. }
  split_and!.
  - apply PyDictFacts.keys_update_all.
  - intros n. apply PyDictFacts.get_update_all.
  - intros s. split; [apply reclassify_only_status | apply Hbands].
  - intros H30 s. destruct (Hbands s) as (H1 & H2 & _).
    rewrite H30 in *. split; intros E.
    + apply H2. rewrite E. split; reflexivity || (intros H; discriminate H).
    + apply H1. rewrite E. reflexivity.
Qed.

Lemma monitor_cycle_bands_witness :
  0 <= heartbeat_interval one_service /\
  status <$> get_service "svc1" (monitor_cycle 31 one_service) = Some UNKNOWN /\
  status <$> get_service "svc1" (monitor_cycle 61 one_service) = Some UNHEALTHY /\
  status <$> get_service "svc1" (monitor_cycle 30 one_service) = Some HEALTHY.
Proof.
  assert (H0 : 0 <= heartbeat_interval one_service) by (simpl; lia).
  split; [exact H0|].
  pose proof (monitor_cycle_bands 31 one_service H0) as (_ & G31 & _).
  pose proof (monitor_cycle_bands 61 one_service H0) as (_ & G61 & _).
  pose proof (monitor_cycle_bands 30 one_service H0) as (_ & G30 & _).
  rewrite (G31 "svc1"), (G61 "svc1"), (G30 "svc1").
  split_and!; reflexivity.
Defined.

End HealthMonitorSpec.

(** ** Heartbeat against deregistration *)

Module ConcurrencySpec.

Import Registry Exn EventLoop Scenario.

Lemma run_heartbeat_deregister (now : Q) (n : string) (r : ServiceRegistry) :
  let b := PyDict.mem n (services r) in
  run [Heartbeat now n; Deregister n] r =
  ret ([Some b; Some b],
       with_services (PyDict.remove n (services r)) r).
Proof.
  simpl. rewrite RegistryFacts.update_heartbeat_total. simpl.
  rewrite RegistryFacts.deregister_total. simpl.
  rewrite !PyDictFacts.mem_update, !PyDictFacts.remove_update. done.
Qed.

Lemma run_deregister_heartbeat (now : Q) (n : string) (r : ServiceRegistry) :
  run [Deregister n; Heartbeat now n] r =
  ret ([Some (PyDict.mem n (services r)); Some false],
       with_services (PyDict.remove n (services r)) r).
Proof.
  simpl. rewrite RegistryFacts.deregister_total. simpl.
  rewrite RegistryFacts.update_heartbeat_total. simpl.
  unfold PyDict.mem at 2. rewrite PyDictFacts.get_remove_eq.
  rewrite !RegistryFacts.update_absent
    by (rewrite ?RegistryFacts.update_absent;
        apply PyDictFacts.get_remove_eq).
  done.
Qed.

(** C10.  A heartbeat and a deregistration of the same name, run by the
    event loop in either order from any registry: neither raises, both
    return a boolean, and the registry left behind is the one the
    deregistration alone would leave.  The name is not a key of it, looking
    it up finds nothing, and every other entry is as it was. *)
Theorem heartbeat_deregister_race (now : Q) (n : string)
    (r : ServiceRegistry) (schedule : list task) :
  schedule ≡ₚ [Heartbeat now n; Deregister n] ->
  exists b1 b2 final,
    run schedule r = ret ([Some b1; Some b2], final) /\
    deregister n r = ret (PyDict.mem n (services r), final) /\
    get_service n final = None /\
    (n ∉ PyDict.keys (services final)) /\
    (forall m, m <> n -> get_service m final = get_service m r).
Proof.
  intros Hperm.
  assert (Hfinal :
    let final := with_services (PyDict.remove n (services r)) r in
    deregister n r = ret (PyDict.mem n (services r), final) /\
    get_service n final = None /\
    (n ∉ PyDict.keys (services final)) /\
    (forall m, m <> n -> get_service m final = get_service m r)).
  { split_and!.
    - apply RegistryFacts.deregister_total.
    - apply PyDictFacts.get_remove_eq.
    - apply PyDictFacts.keys_remove.
    - intros m Hm. apply PyDictFacts.get_remove_ne. congruence. }
  symmetry in Hperm. apply Permutation_length_2_inv in Hperm as [-> | ->].
  - eexists _, _, _. split; [apply run_heartbeat_deregister | exact Hfinal].
  - eexists _, _, _. split; [apply run_deregister_heartbeat | exact Hfinal].
Qed.

Lemma heartbeat_deregister_race_witness :
  [Deregister "svc1"; Heartbeat 5 "svc1"]
    ≡ₚ [Heartbeat 5 "svc1"; Deregister "svc1"] /\
  exists b1 b2 final,
    run [Deregister "svc1"; Heartbeat 5 "svc1"] two_services
      = ret ([Some b1; Some b2], final) /\
    deregister "svc1" two_services
      = ret (PyDict.mem "svc1" (services two_services), final) /\
    get_service "svc1" final = None /\
    ("svc1" ∉ PyDict.keys (services final)) /\
    (forall m, m <> "svc1" -> get_service m final = get_service m two_services).
Proof.
  assert (H : [Deregister "svc1"; Heartbeat 5 "svc1"]
                ≡ₚ [Heartbeat 5 "svc1"; Deregister "svc1"])
    by apply perm_swap.
  split; [exact H|].
  exact (heartbeat_deregister_race 5 "svc1" two_services _ H).
Defined.

End ConcurrencySpec.

(** ** The load balancer *)

Module LoadBalancerSpec.

Import Registry Exn Router Router.LoadBalancer Scenario.

(** The index round-robin computes falls inside a non-empty list, so the
    subscript finds an element. *)
Lemma round_robin_index (s : ServiceInfo) (rest : list ServiceInfo)
    (state : LBState) :
  let next :=
    (default (-1) (last_index state) + 1)
      `mod` Z.of_nat (length (s :: rest)) in
  0 <= next < Z.of_nat (length (s :: rest)) /\
  exists pick, (s :: rest) !! Z.to_nat next = Some pick /\
    round_robin (s :: rest) state =
    (Some pick, {| last_index := Some next;
                   connections := connections state |}).
Proof.
  cbv zeta.
  assert (Hlen : 0 < Z.of_nat (length (s :: rest))) by (simpl; lia).
  pose proof (Z.mod_pos_bound (default (-1) (last_index state) + 1)
                _ Hlen) as Hb.
  destruct (lookup_lt_is_Some_2 (s :: rest)
              (Z.to_nat ((default (-1) (last_index state) + 1)
                         `mod` Z.of_nat (length (s :: rest)))))
    as [pick Hpick]; [lia|].
  split; [exact Hb|]. exists pick. split; [exact Hpick|].
  unfold round_robin. by rewrite Hpick.
Qed.

(** C6.  Round-robin over a non-empty candidate list: the index
    [(last_index + 1) mod len], with [last_index] read as -1 when the state
    has none, is within the list; the element there is the pick; the state
    afterwards holds that index and is otherwise unchanged.  Four picks in a
    row over two candidates, from a fresh state, are the first, the second,
    the first, the second. *)
Theorem round_robin_next (s : ServiceInfo) (rest : list ServiceInfo)
    (state : LBState) :
  let services := s :: rest in
  let next :=
    (default (-1) (last_index state) + 1) `mod` Z.of_nat (length services) in
  0 <= next < Z.of_nat (length services) /\
  (exists pick, services !! Z.to_nat next = Some pick /\
                fst (round_robin services state) = Some pick) /\
  last_index (snd (round_robin services state)) = Some next /\
  connections (snd (round_robin services state)) = connections state /\
  (forall svc1 svc2,
     select_many 4 [svc1; svc2] empty_state =
     [Some svc1; Some svc2; Some svc1; Some svc2]).
Proof.
  cbv zeta.
  destruct (round_robin_index s rest state) as (Hb & pick & Hpick & Heq).
  rewrite Heq. simpl fst. simpl snd.
  split; [exact Hb|].
  split; [by exists pick|].
  split; [reflexivity|].
  split; [reflexivity|].
  intros svc1 svc2. reflexivity.
Qed.

(** The loop of [least_connections] returns a candidate whose count is a
    minimum, and the first such in list order. *)
Lemma least_loop_spec (conns : gmap string Z) (services : list ServiceInfo) :
  forall (m : option Z) (sel : option ServiceInfo) (pre : list ServiceInfo),
    match m, sel with
    | None, None => pre = []
    | Some k, Some p =>
        exists l1 l2, pre = (l1 ++ p :: l2)%list /\ count_of conns p = k /\
          (forall x, x ∈ l1 -> k < count_of conns x) /\
          (forall x, x ∈ l2 -> k <= count_of conns x)
    | _, _ => False
    end ->
    match least_loop conns services m sel with
    | None => (pre ++ services)%list = []
    | Some p =>
        exists l1 l2, (pre ++ services)%list = (l1 ++ p :: l2)%list /\
          (forall x, x ∈ l1 -> count_of conns p < count_of conns x) /\
          (forall x, x ∈ l2 -> count_of conns p <= count_of conns x)
    end.
Proof.
  induction services as [|s services IH]; intros m sel pre Hinv; simpl.
  - destruct m as [k|], sel as [p|]; try done.
    + destruct Hinv as (l1 & l2 & -> & <- & H1 & H2).
      exists l1, l2. by rewrite app_nil_r.
    + by subst pre.
  - fold (count_of conns s). unfold below.
    replace (pre ++ s :: services)%list
      with ((pre ++ [s]) ++ services)%list by (by rewrite <- app_assoc).
    destruct m as [k|], sel as [p|]; try done.
    + destruct Hinv as (l1 & l2 & Hpre & <- & H1 & H2).
      case_bool_decide as Hlt; apply (IH _ _ (pre ++ [s])%list).
      * exists pre, []. split_and!; [done | done | | ].
        -- intros x Hx. rewrite Hpre in Hx.
           apply elem_of_app in Hx as [Hx|Hx].
           ++ specialize (H1 x Hx). lia.
           ++ apply elem_of_cons in Hx as [->|Hx]; [lia|].
              specialize (H2 x Hx). lia.
        -- intros x Hx. by apply elem_of_nil in Hx.
      * exists l1, (l2 ++ [s])%list. split_and!; [ | done | done | ].
        -- rewrite Hpre. by rewrite <- app_assoc.
        -- intros x Hx. apply elem_of_app in Hx as [Hx|Hx]; [by apply H2|].
           apply list_elem_of_singleton in Hx as ->. lia.
    + subst pre. apply (IH _ _ [s]). exists [], []. split_and!; try done.
      * intros x Hx. by apply elem_of_nil in Hx.
      * intros x Hx. by apply elem_of_nil in Hx.
Qed.

(** Given the counts, [least_connections] picks a candidate with the
    minimum count, the first one in list order on a tie. *)
Lemma least_connections_min (s : ServiceInfo) (rest : list ServiceInfo)
    (state : LBState) :
  let conns := default ∅ (connections state) in
  exists p l1 l2,
    least_connections (s :: rest) state = (Some p, state) /\
    s :: rest = (l1 ++ p :: l2)%list /\
    (forall x, x ∈ l1 -> count_of conns p < count_of conns x) /\
    (forall x, x ∈ l2 -> count_of conns p <= count_of conns x).
Proof.
  cbv zeta. unfold least_connections.
  pose proof (least_loop_spec (default ∅ (connections state)) (s :: rest)
                None None [] eq_refl) as H.
  destruct (least_loop _ (s :: rest) None None) as [p|].
  - destruct H as (l1 & l2 & Heq & H1 & H2).
    exists p, l1, l2. simpl in Heq. done.
  - discriminate H.
Qed.

(** Without a ['connections'] key in the state every count reads 0, and
    the pick is the head of the list. *)
Lemma least_loop_no_counts (services : list ServiceInfo) (p : ServiceInfo) :
  least_loop ∅ services (Some 0) (Some p) = Some p.
Proof.
  induction services as [|s services IH]; simpl; [done|].
  rewrite lookup_empty. simpl. exact IH.
Qed.

Lemma least_connections_no_key (s : ServiceInfo) (rest : list ServiceInfo)
    (state : LBState) :
  connections state = None ->
  least_connections (s :: rest) state = (Some s, state).
Proof.
  intros H. unfold least_connections. rewrite H. simpl.
  rewrite lookup_empty. simpl. by rewrite least_loop_no_counts.
Qed.

End LoadBalancerSpec.

(** ** The router *)

Module RouterFacts.

Import Registry Exn Router Scenario.

Lemma lookup_acquire (n : string) (c : gmap string Z) :
  acquire n c !! n = Some (default 0 (c !! n) + 1).
Proof. unfold acquire. apply lookup_insert_eq. Qed.

Lemma release_present (n : string) (k : Z) (c : gmap string Z) :
  c !! n = Some k -> release n c = ret (<[n := k - 1]> c).
Proof. intros H. unfold release. by rewrite H. Qed.

(** With nothing else scheduled during the call, the [finally] block
    finds the counter it has to decrement, whatever the call did. *)
Lemma forward_request_alone (call : option exn) (s : ServiceInfo)
    (req : RouteRequest) (r : Router) :
  forward_request call id s req r =
  (forward_body call s req,
   with_connections
     (<[name s := default 0 (active_connections r !! name s)]>
        (active_connections r)) r).
Proof.
  unfold forward_request. simpl.
  rewrite (release_present _ _ _ (lookup_acquire _ _)). simpl.
  unfold acquire. rewrite insert_insert_eq.
  by replace (default 0 (active_connections r !! name s) + 1 - 1)
    with (default 0 (active_connections r !! name s)) by lia.
Qed.

Lemma route_snd (rnd : nat) (call : option exn) (others : Router -> Router)
    (req : RouteRequest) (r : Router) :
  snd (route rnd call others req r) = snd (route_body rnd call others req r).
Proof.
  unfold route. destruct (route_body rnd call others req r) as [[resp|e] r'];
    [done|]. by destruct (is_Exception e).
Qed.

Lemma route_returned (rnd : nat) (call : option exn)
    (others : Router -> Router) (req : RouteRequest) (r : Router)
    (resp : RouteResponse) :
  fst (route_body rnd call others req r) = ret resp ->
  fst (route rnd call others req r) = ret resp.
Proof.
  unfold route. destruct (route_body rnd call others req r) as [[resp'|e] r'];
    simpl; [done | discriminate].
Qed.

(** Capability routing under round-robin, with nothing else scheduled
    during the call. *)
Lemma route_body_round_robin (rnd : nat) (call : option exn)
    (req : RouteRequest) (cap : string) (r : Router) (a : ServiceInfo)
    (l : list ServiceInfo) :
  load_balancer r = RoundRobin ->
  truthy (target_service req) = None ->
  truthy (capability req) = Some cap ->
  get_services_by_capability cap (registry r) = a :: l ->
  let next :=
    (default (-1) (last_index (load_balancer_state r)) + 1)
      `mod` Z.of_nat (length (a :: l)) in
  exists pick,
    (a :: l) !! Z.to_nat next = Some pick /\
    route_body rnd call id req r =
    forward_request call id pick req
      (with_state {| last_index := Some next;
                     connections := connections (load_balancer_state r) |} r).
Proof.
  intros Hlb Ht Hc Hl next.
  destruct (LoadBalancerSpec.round_robin_index a l (load_balancer_state r))
    as (_ & pick & Hpick & Heq).
  exists pick. split; [exact Hpick|].
  unfold route_body. rewrite Ht, Hc, Hl, Hlb.
  unfold run_strategy. by rewrite Heq.
Qed.

End RouterFacts.

Module RouterSpec.

Import Registry Exn Router Hub Scenario.

(** C7.  A forward to service [s], with nothing else scheduled during
    the call: while the call is in progress the counter of [s] reads one
    more than before; whether the call returns or raises, the forward ends
    with the outcome of the call, the counter back at its value before, the
    other counters, the registry and the balancer state untouched.  With
    other tasks scheduled during the call, the forward still ends with the
    outcome of the call and the counter one below what those tasks left. *)
Theorem forward_request_restores_counter (call : option exn)
    (s : ServiceInfo) (req : RouteRequest) (r : Router) :
  let n := name s in
  let before := default 0 (active_connections r !! n) in
  let during := with_connections (acquire n (active_connections r)) r in
  let out := forward_request call id s req r in
  active_connections during !! n = Some (before + 1) /\
  fst out = forward_body call s req /\
  active_connections (snd out) !! n = Some before /\
  (forall m, m <> n ->
     active_connections (snd out) !! m = active_connections r !! m) /\
  registry (snd out) = registry r /\
  load_balancer_state (snd out) = load_balancer_state r /\
  (forall (others : Router -> Router) (k : Z),
     active_connections (others during) !! n = Some k ->
     let out' := forward_request call others s req r in
     fst out' = forward_body call s req /\
     active_connections (snd out') !! n = Some (k - 1)).
Proof.
  cbv zeta. rewrite RouterFacts.forward_request_alone. simpl.
  split_and!; try done.
  - apply RouterFacts.lookup_acquire.
  - apply lookup_insert_eq.
  - intros m Hm. apply lookup_insert_ne. congruence.
  - intros others k Hk. unfold forward_request.
    rewrite (RouterFacts.release_present _ _ _ Hk). simpl.
    split; [done | apply lookup_insert_eq].
Qed.

(** C9.  Round-robin keeps one position for the whole router.  Two
    capability requests in a row, for capabilities with candidate lists
    [a :: l1] and [b :: l2]: the first leaves [last_index] at
    [i1 = (last_index + 1) mod len (a :: l1)] and the registry as it was;
    the second is served by the element of [b :: l2] at index
    [(i1 + 1) mod len (b :: l2)], and leaves that index in the state. *)
Theorem round_robin_index_shared (rnd1 rnd2 : nat) (call1 : option exn)
    (req1 req2 : RouteRequest) (c1 c2 : string) (r : Router)
    (a b : ServiceInfo) (l1 l2 : list ServiceInfo) :
  load_balancer r = RoundRobin ->
  truthy (target_service req1) = None -> truthy (capability req1) = Some c1 ->
  truthy (target_service req2) = None -> truthy (capability req2) = Some c2 ->
  get_services_by_capability c1 (registry r) = a :: l1 ->
  get_services_by_capability c2 (registry r) = b :: l2 ->
  let i1 := (default (-1) (last_index (load_balancer_state r)) + 1)
              `mod` Z.of_nat (length (a :: l1)) in
  let i2 := (i1 + 1) `mod` Z.of_nat (length (b :: l2)) in
  let r1 := snd (route rnd1 call1 id req1 r) in
  let out2 := route rnd2 None id req2 r1 in
  last_index (load_balancer_state r1) = Some i1 /\
  registry r1 = registry r /\
  (exists pick, (b :: l2) !! Z.to_nat i2 = Some pick /\
                fst out2 = forward_body None pick req2) /\
  last_index (load_balancer_state (snd out2)) = Some i2.
Proof.
  intros Hlb Ht1 Hc1 Ht2 Hc2 Hl1 Hl2. cbv zeta.
  destruct (RouterFacts.route_body_round_robin rnd1 call1 req1 c1 r a l1
              Hlb Ht1 Hc1 Hl1) as (p1 & Hp1 & Hbody1).
  rewrite RouterFacts.route_snd, Hbody1.
  rewrite RouterFacts.forward_request_alone. simpl snd.
  set (r1 := with_connections _ _).
  assert (Hlb1 : load_balancer r1 = RoundRobin) by exact Hlb.
  assert (Hl2' : get_services_by_capability c2 (registry r1) = b :: l2)
    by exact Hl2.
  destruct (RouterFacts.route_body_round_robin rnd2 None req2 c2 r1 b l2
              Hlb1 Ht2 Hc2 Hl2') as (p2 & Hp2 & Hbody2).
  simpl in Hp2, Hbody2.
  split_and!; try done.
  - exists p2. split; [exact Hp2|].
    apply RouterFacts.route_returned. rewrite Hbody2.
    by rewrite RouterFacts.forward_request_alone.
  - rewrite RouterFacts.route_snd, Hbody2.
    by rewrite RouterFacts.forward_request_alone.
Qed.

Lemma round_robin_index_shared_witness :
  let r := round_robin_hub in
  let a1 := record_of 1 "a1" "10.0.0.1" 9000 (Some ["search"]) None in
  let a2 := record_of 1 "a2" "10.0.0.1" 9000 (Some ["search"]) None in
  let b1 := record_of 1 "b1" "10.0.0.1" 9000 (Some ["chat"]) None in
  let b2 := record_of 1 "b2" "10.0.0.1" 9000 (Some ["chat"]) None in
  let a := set_status HEALTHY (set_last_heartbeat 1 a1) in
  let l1 := [set_status HEALTHY (set_last_heartbeat 1 a2)] in
  let b := set_status HEALTHY (set_last_heartbeat 1 b1) in
  let l2 := [set_status HEALTHY (set_last_heartbeat 1 b2)] in
  let r1 := snd (route 0 None id (by_capability "search") r) in
  let out2 := route 0 None id (by_capability "chat") r1 in
  last_index (load_balancer_state r1) = Some 0 /\
  registry r1 = registry r /\
  (exists pick, (b :: l2) !! Z.to_nat 1 = Some pick /\
                fst out2 = forward_body None pick (by_capability "chat")) /\
  last_index (load_balancer_state (snd out2)) = Some 1.
Proof.
  exact (round_robin_index_shared 0 0 None
           (by_capability "search") (by_capability "chat")
           "search" "chat" round_robin_hub _ _ _ _
           eq_refl eq_refl eq_refl eq_refl eq_refl eq_refl eq_refl).
Defined.

(** Four requests for one capability go round its two workers. *)
Example single_capability_alternates :
  let r1 := route 0 None id (by_capability "search") round_robin_hub in
  let r2 := route 0 None id (by_capability "search") (snd r1) in
  let r3 := route 0 None id (by_capability "search") (snd r2) in
  let r4 := route 0 None id (by_capability "search") (snd r3) in
  map served_by [r1; r2; r3; r4] =
  [Some "a1"; Some "a2"; Some "a1"; Some "a2"].
Proof. vm_compute. reflexivity. Qed.

(** Requests alternating between the two capabilities are all served by
    the same two workers: [a2] and [b1] are never picked. *)
Example alternating_capabilities :
  let r1 := route 0 None id (by_capability "search") round_robin_hub in
  let r2 := route 0 None id (by_capability "chat") (snd r1) in
  let r3 := route 0 None id (by_capability "search") (snd r2) in
  let r4 := route 0 None id (by_capability "chat") (snd r3) in
  map served_by [r1; r2; r3; r4] =
  [Some "a1"; Some "b2"; Some "a1"; Some "b2"].
Proof. vm_compute. reflexivity. Qed.

(** *** Requests without a routing criterion *)

(** [POST /route] with a [method] and neither [target_service] nor
    [capability], on the freshly started hub: the answer is not a 400. *)
Lemma route_request_bare_not_400 :
  http_status (fst (route_request 0 None id bare_body
                      (lifespan default_config))) <> Some 400.
Proof. vm_compute. discriminate. Qed.

(** C2, amended.  A request with neither a target service nor a
    capability (absent or empty): [route] returns, without raising and
    without touching the router, the failed response with error
    [No target service or capability specified] that echoes the request
    id.  [POST /route] with such a body leaves the hub as it was and always
    answers with an error status: 400 exactly when the body has no
    [method], another error status otherwise; never 200. *)
Theorem route_without_criteria (rnd : nat) (call : option exn)
    (others : Router -> Router) (req : RouteRequest) (b : RouteBody)
    (hub : Router) :
  truthy (target_service req) = None -> truthy (capability req) = None ->
  truthy (body_target_service b) = None ->
  truthy (body_capability b) = None ->
  route rnd call others req hub =
    (ret {| success := false; data := None;
            error := Some "No target service or capability specified";
            service_name := None;
            response_request_id := request_id req |}, hub) /\
  let out := route_request rnd call others b hub in
  snd out = hub /\
  http_status (fst out) <> Some 200 /\
  (http_status (fst out) = Some 400 <-> body_method b = None) /\
  (exists c, http_status (fst out) = Some c /\ 400 <= c <= 599 /\
             (c = 400 <-> body_method b = None)).
Proof.
  intros Ht Hc Hbt Hbc.
  assert (Hroute : forall q, truthy (target_service q) = None ->
            truthy (capability q) = None ->
            route rnd call others q hub =
            (ret (failure "No target service or capability specified" q),
             hub)).
  { intros q H1 H2. unfold route, route_body. by rewrite H1, H2. }
  split; [by apply Hroute|].
  cbv zeta. unfold route_request.
  destruct (body_method b) as [m|] eqn:Hm; simpl.
  - rewrite Hroute by done. simpl.
    split_and!; [done | discriminate | split; discriminate |].
    exists 500. split_and!; [done | lia | lia | split; discriminate].
  - split_and!; [done | discriminate | done |].
    exists 400. split_and!; [done | lia | lia | done].
Qed.

Lemma route_without_criteria_witness :
  let req := {| method := "ping"; params := []; capability := Some "";
                target_service := None; request_id := Some "r-1" |} in
  route 0 None id req idle_hub =
    (ret {| success := false; data := None;
            error := Some "No target service or capability specified";
            service_name := None;
            response_request_id := Some "r-1" |}, idle_hub) /\
  let out := route_request 0 None id bare_body idle_hub in
  snd out = idle_hub /\
  http_status (fst out) <> Some 200 /\
  (http_status (fst out) = Some 400 <-> body_method bare_body = None) /\
  (exists c, http_status (fst out) = Some c /\ 400 <= c <= 599 /\
             (c = 400 <-> body_method bare_body = None)).
Proof.
  exact (route_without_criteria 0 None id
           {| method := "ping"; params := []; capability := Some "";
              target_service := None; request_id := Some "r-1" |}
           bare_body idle_hub eq_refl eq_refl eq_refl eq_refl).
Defined.

(** *** Least connections *)

(** [route] never adds the ['connections'] key to the balancer state. *)
Lemma route_keeps_connections_key (rnd : nat) (call : option exn)
    (req : RouteRequest) (r : Router) :
  connections (load_balancer_state (snd (route rnd call id req r))) =
  connections (load_balancer_state r).
Proof.
  rewrite RouterFacts.route_snd. unfold route_body.
  destruct (truthy (target_service req)) as [target|].
  - destruct (get_service target (registry r)) as [s|]; [|done].
    destruct (decide (status s = HEALTHY)); [|done].
    by rewrite RouterFacts.forward_request_alone.
  - destruct (truthy (capability req)) as [cap|]; [|done].
    destruct (get_services_by_capability cap (registry r)) as [|a l]; [done|].
    destruct (run_strategy (load_balancer r) rnd (a :: l)
                (load_balancer_state r)) as [pick st] eqn:E.
    assert (Hst : connections st = connections (load_balancer_state r)).
    { destruct (load_balancer r); unfold run_strategy in E.
      - destruct (LoadBalancerSpec.round_robin_index a l
                    (load_balancer_state r)) as (_ & p & _ & Heq).
        rewrite Heq in E. by simplify_eq.
      - unfold LoadBalancer.random_choice in E. by simplify_eq.
      - unfold LoadBalancer.least_connections in E. by simplify_eq. }
    destruct pick as [s|]; [|done].
    by rewrite RouterFacts.forward_request_alone.
Qed.

(** So under [least_connections] a capability request goes to the first
    candidate, whatever [active_connections] holds. *)
Lemma route_least_connections_head (rnd : nat) (call : option exn)
    (req : RouteRequest) (cap : string) (r : Router) (a : ServiceInfo)
    (l : list ServiceInfo) :
  load_balancer r = LeastConnections ->
  connections (load_balancer_state r) = None ->
  truthy (target_service req) = None ->
  truthy (capability req) = Some cap ->
  get_services_by_capability cap (registry r) = a :: l ->
  route_body rnd call id req r = forward_request call id a req r.
Proof.
  intros Hlb Hnone Ht Hc Hl. unfold route_body.
  rewrite Ht, Hc, Hl, Hlb. unfold run_strategy.
  rewrite LoadBalancerSpec.least_connections_no_key by done.
  by destruct r.
Qed.

(** C1, on the code.  The default hub with candidates [A; B] for
    [chat], two requests in flight to A and none to B: the balancer state
    has no ['connections'] key, and the next [chat] request goes to A. *)
Theorem least_connections_routes_to_busy_worker :
  load_balancer busy_hub = LeastConnections /\
  map name (get_services_by_capability "chat" (registry busy_hub))
    = ["A"; "B"] /\
  active_connections busy_hub !! "A" = Some 2 /\
  active_connections busy_hub !! "B" = Some 0 /\
  connections (load_balancer_state busy_hub) = None /\
  served_by (route 0 None id (by_capability "chat") busy_hub) = Some "A".
Proof. vm_compute. repeat split. Qed.

(** Handed the same counts under ['connections'], the strategy itself
    picks B. *)
Example least_connections_given_counts :
  name <$> fst (LoadBalancer.least_connections
                  (get_services_by_capability "chat" (registry busy_hub))
                  {| last_index := None;
                     connections := Some (active_connections busy_hub) |})
  = Some "B".
Proof. vm_compute. reflexivity. Qed.


End RouterSpec.

(** * Further properties of the registry *)

Module RegistryExtra.

Import Registry Exn EventLoop Scenario Invariant.

Lemma keyed_values (d : list (string * ServiceInfo)) (s : ServiceInfo) :
  keyed d -> s ∈ PyDict.values d ->
  exists s', PyDict.get (name s) d = Some s'.
Proof.
  intros Hk Hs. unfold PyDict.values in Hs.
  apply list_elem_of_fmap in Hs as ([k v] & -> & Hin). simpl.
  unfold keyed in Hk. rewrite Forall_forall in Hk.
  pose proof (Hk _ Hin) as Hname. simpl in Hname. rewrite Hname.
  clear Hk Hname. induction d as [|[k0 v0] d IH]; [by apply elem_of_nil in Hin|].
  simpl. destruct (decide (k = k0)); [by eexists|].
  apply elem_of_cons in Hin as [Heq|Hin]; [congruence | by apply IH].
Qed.

Lemma values_remove_subset (n : string) (d : list (string * ServiceInfo))
    (s : ServiceInfo) :
  s ∈ PyDict.values (PyDict.remove n d) -> s ∈ PyDict.values d.
Proof.
  induction d as [|[k v] d IH]; simpl; [done|].
  destruct (decide (n = k)); simpl.
  - intros H. apply elem_of_cons. right. by apply IH.
  - rewrite !elem_of_cons. intros [->|H]; [by left | right; by apply IH].
Qed.

Lemma keyed_remove (n : string) (d : list (string * ServiceInfo)) :
  keyed d -> keyed (PyDict.remove n d).
Proof.
  unfold keyed. induction d as [|[k v] d IH]; simpl; [done|].
  rewrite Forall_cons. intros [Hk Hd].
  destruct (decide (n = k)); [by apply IH|].
  apply Forall_cons. split; [done | by apply IH].
Qed.

Lemma keyed_set (s : ServiceInfo) (d : list (string * ServiceInfo)) :
  keyed d -> keyed (PyDict.set (name s) s d).
Proof.
  unfold keyed. induction d as [|[k v] d IH]; simpl.
  - intros _. by apply Forall_cons.
  - rewrite Forall_cons. intros [Hk Hd].
    destruct (decide (name s = k)); apply Forall_cons; split; try done.
    by apply IH.
Qed.

Lemma keyed_update (n : string) (f : ServiceInfo -> ServiceInfo)
    (d : list (string * ServiceInfo)) :
  (forall s, name (f s) = name s) -> keyed d -> keyed (PyDict.update n f d).
Proof.
  intros Hf. unfold keyed. induction d as [|[k v] d IH]; simpl; [done|].
  rewrite Forall_cons. intros [Hk Hd]. simpl in Hk.
  destruct (decide (n = k)); apply Forall_cons; split; simpl; try done.
  - by rewrite Hf.
  - by apply IH.
Qed.

Lemma name_reclassify (now : Q) (hb : Z) (s : ServiceInfo) :
  name (reclassify now hb s) = name s.
Proof.
  unfold reclassify. destruct (Qgtb _ _); [done|]. by destruct (Qgtb _ _).
Qed.

Lemma keyed_update_all (f : ServiceInfo -> ServiceInfo)
    (d : list (string * ServiceInfo)) :
  (forall s, name (f s) = name s) -> keyed d -> keyed (PyDict.update_all f d).
Proof.
  intros Hf. unfold keyed, PyDict.update_all. rewrite Forall_fmap.
  intros H. eapply Forall_impl; [exact H|].
  intros [k v]. simpl. intros <-. apply Hf.
Qed.

(** Each task of the event loop returns, whatever the registry. *)
Lemma step_total (t : task) (r : ServiceRegistry) :
  exists out, step t r = ret out.
Proof.
  destruct t as [s|n|now n|now]; simpl.
  - by eexists.
  - rewrite RegistryFacts.deregister_total. by eexists.
  - rewrite RegistryFacts.update_heartbeat_total. by eexists.
  - by eexists.
Qed.

Lemma step_keyed (t : task) (r : ServiceRegistry)
    (out : option bool * ServiceRegistry) :
  keyed (services r) -> step t r = ret out -> keyed (services (snd out)).
Proof.
  intros Hr. destruct t as [s|n|now n|now]; simpl.
  - intros [= <-]. simpl. by apply keyed_set.
  - rewrite RegistryFacts.deregister_total. simpl. intros [= <-]. simpl.
    by apply keyed_remove.
  - rewrite RegistryFacts.update_heartbeat_total. simpl. intros [= <-]. simpl.
    apply keyed_update; [done|]. by apply keyed_update.
  - intros [= <-]. simpl. apply keyed_update_all; [|done].
    intros s. apply name_reclassify.
Qed.

Lemma step_settings (t : task) (r : ServiceRegistry)
    (out : option bool * ServiceRegistry) :
  step t r = ret out ->
  heartbeat_interval (snd out) = heartbeat_interval r /\
  health_check_interval (snd out) = health_check_interval r /\
  health_check_task (snd out) = health_check_task r || is_register t.
Proof.
  destruct t as [s|n|now n|now]; simpl.
  - intros [= <-]. simpl. by rewrite orb_true_r.
  - rewrite RegistryFacts.deregister_total. simpl. intros [= <-]. simpl.
    by rewrite orb_false_r.
  - rewrite RegistryFacts.update_heartbeat_total. simpl. intros [= <-]. simpl.
    by rewrite orb_false_r.
  - intros [= <-]. simpl. by rewrite orb_false_r.
Qed.

(** No capability query on a directory from which [n] was removed
    returns a record named [n]; what it returns was returned before. *)
Lemma capability_after_remove (n c : string) (r : ServiceRegistry)
    (s : ServiceInfo) :
  keyed (services r) ->
  s ∈ get_services_by_capability c
        (with_services (PyDict.remove n (services r)) r) ->
  name s <> n /\ s ∈ get_services_by_capability c r.
Proof.
  intros Hk Hs. unfold get_services_by_capability in *. simpl in Hs.
  apply list_elem_of_filter in Hs as [HP Hs]. split.
  - intros Hname.
    destruct (keyed_values _ s (keyed_remove n _ Hk) Hs) as [s' H].
    rewrite Hname, PyDictFacts.get_remove_eq in H. discriminate.
  - apply list_elem_of_filter. split; [done|].
    by eapply values_remove_subset.
Qed.

(** X1.  Once a name is deregistered it cannot be found nor routed to:
    in the registry [deregister] leaves, looking the name up finds nothing,
    no capability query returns a record of that name, and every record a
    capability query returns was returned before. *)
Theorem deregister_unroutable (n : string) (r r' : ServiceRegistry)
    (b : bool) :
  keyed (services r) ->
  deregister n r = ret (b, r') ->
  get_service n r' = None /\
  (forall c s, s ∈ get_services_by_capability c r' ->
     name s <> n /\ s ∈ get_services_by_capability c r).
Proof.
  intros Hk. rewrite RegistryFacts.deregister_total. intros [= <- <-].
  split; [apply PyDictFacts.get_remove_eq|].
  intros c s Hs. by apply capability_after_remove.
Qed.

Lemma deregister_unroutable_witness :
  get_service "svc1" (with_services
                        (PyDict.remove "svc1" (services two_services))
                        two_services) = None /\
  (forall c s,
     s ∈ get_services_by_capability c
           (with_services (PyDict.remove "svc1" (services two_services))
                          two_services) ->
     name s <> "svc1" /\ s ∈ get_services_by_capability c two_services).
Proof.
  apply (deregister_unroutable "svc1" two_services _ true).
  - unfold keyed. simpl. repeat constructor.
  - reflexivity.
Defined.

(** X2.  No schedule of registrations, deregistrations, heartbeats and
    monitor cycles raises: from any registry the run ends with one result
    per task. *)
Theorem run_never_raises (schedule : list task) (r : ServiceRegistry) :
  exists outs r',
    run schedule r = ret (outs, r') /\ length outs = length schedule.
Proof.
  revert r. induction schedule as [|t rest IH]; intros r; simpl.
  - by eexists _, _.
  - destruct (step_total t r) as [out Hout]. rewrite Hout. simpl.
    destruct (IH (snd out)) as (outs & r' & Hrun & Hlen).
    rewrite Hrun. simpl. eexists _, _. split; [done|]. simpl. by rewrite Hlen.
Qed.

(** X3.  The directory stays well formed under every schedule: no key
    occurs twice and every record sits under its own name. *)
Theorem run_well_formed (schedule : list task) (r r' : ServiceRegistry)
    (outs : list (option bool)) :
  well_formed r ->
  run schedule r = ret (outs, r') ->
  well_formed r'.
Proof.
  revert r outs. induction schedule as [|t rest IH]; intros r outs Hwf; simpl.
  - by intros [= <- <-].
  - destruct (step t r) as [out|e] eqn:Hstep; [|done]. simpl.
    destruct (run rest (snd out)) as [[outs' r'']|e] eqn:Hrun; [|done].
    simpl. intros [= <- <-].
    apply (IH (snd out) outs'); [|done].
    destruct Hwf as [Hnd Hkeyed]. split.
    + by eapply RegistryFacts.step_keys_distinct.
    + by eapply step_keyed.
Qed.

Lemma run_well_formed_witness :
  well_formed two_services /\
  well_formed
    (with_services
       (PyDict.remove "svc1"
          (PyDict.update_all
             (reclassify 40 30) (services two_services)))
       two_services).
Proof.
  assert (H : well_formed two_services).
  { split; simpl.
    - apply NoDup_cons. split; [|apply NoDup_singleton].
      intros H. apply list_elem_of_singleton in H. discriminate.
    - unfold keyed. repeat constructor. }
  split; [exact H|].
  apply (run_well_formed [MonitorCycle 40; Deregister "svc1"] two_services _
           [None; Some true] H).
  reflexivity.
Defined.

(** X4.  The registry's settings under a schedule: the two intervals
    never change, and the monitor task exists afterwards exactly when it
    existed before or the schedule contains a registration. *)
Theorem run_settings (schedule : list task) (r r' : ServiceRegistry)
    (outs : list (option bool)) :
  run schedule r = ret (outs, r') ->
  heartbeat_interval r' = heartbeat_interval r /\
  health_check_interval r' = health_check_interval r /\
  health_check_task r' = health_check_task r || existsb is_register schedule.
Proof.
  revert r outs. induction schedule as [|t rest IH]; intros r outs; simpl.
  - intros [= <- <-]. by rewrite orb_false_r.
  - destruct (step t r) as [out|e] eqn:Hstep; [|done]. simpl.
    destruct (run rest (snd out)) as [[outs' r'']|e] eqn:Hrun; [|done].
    simpl. intros [= <- <-].
    destruct (step_settings t r out Hstep) as (H1 & H2 & H3).
    destruct (IH (snd out) outs' Hrun) as (G1 & G2 & G3).
    rewrite G1, G2, G3, H1, H2, H3. by rewrite orb_assoc.
Qed.

Lemma run_settings_witness :
  let r := Registry.init 30 10 in
  let r' := snd (register (new_ServiceInfo 2 "svc1" "10.0.0.1" 9001 [] None)
                   r) in
  heartbeat_interval r' = heartbeat_interval r /\
  health_check_interval r' = health_check_interval r /\
  health_check_task r' =
    health_check_task r ||
    existsb is_register
      [Heartbeat 1 "svc1";
       Register (new_ServiceInfo 2 "svc1" "10.0.0.1" 9001 [] None)].
Proof.
  exact (run_settings
           [Heartbeat 1 "svc1";
            Register (new_ServiceInfo 2 "svc1" "10.0.0.1" 9001 [] None)]
           (Registry.init 30 10) _ [Some false; Some true] eq_refl).
Defined.

(** The monitor leaves a record [HEALTHY] only if it was [HEALTHY] and its
    heartbeat is at most one interval old. *)
Lemma reclassify_healthy (now : Q) (hb : Z) (s : ServiceInfo) :
  status (reclassify now hb s) = HEALTHY ->
  reclassify now hb s = s /\ status s = HEALTHY /\
  (now - last_heartbeat s <= inject_Z hb)%Q.
Proof.
  unfold reclassify.
  destruct (Qgtb _ (inject_Z (hb * 2))) eqn:E2; [discriminate|].
  destruct (Qgtb _ (inject_Z hb)) eqn:E1; [discriminate|].
  intros H. split_and!; [done | done |].
  by apply RegistryFacts.Qgtb_false.
Qed.

Lemma reclassify_twice (now : Q) (hb : Z) (s : ServiceInfo) :
  reclassify now hb (reclassify now hb s) = reclassify now hb s.
Proof.
  unfold reclassify at 2 3.
  destruct (Qgtb _ (inject_Z (hb * 2))) eqn:E2.
  - unfold reclassify. simpl. by rewrite E2.
  - destruct (Qgtb _ (inject_Z hb)) eqn:E1.
    + unfold reclassify. simpl. by rewrite E2, E1.
    + unfold reclassify. by rewrite E2, E1.
Qed.

(** X5.  After a monitor cycle at time [now], every service counted as
    healthy has a heartbeat at most one interval old, and it was healthy,
    with the same record, before the cycle: the monitor never promotes a
    service. *)
Theorem monitor_cycle_healthy_fresh (now : Q) (r : ServiceRegistry)
    (s : ServiceInfo) :
  s ∈ get_healthy_services (monitor_cycle now r) ->
  (now - last_heartbeat s <= inject_Z (heartbeat_interval r))%Q /\
  s ∈ get_healthy_services r.
Proof.
  unfold get_healthy_services, monitor_cycle. simpl.
  rewrite PyDictFacts.values_update_all.
  intros Hs. apply list_elem_of_filter in Hs as [Hst Hs].
  change (map ?f ?l) with (f <$> l) in Hs.
  apply list_elem_of_fmap in Hs as (s0 & -> & Hin).
  destruct (reclassify_healthy _ _ _ Hst) as (Heq & Hh & Hfresh).
  rewrite Heq. split; [done|].
  apply list_elem_of_filter. by split.
Qed.

Lemma monitor_cycle_healthy_fresh_witness :
  let s := set_status HEALTHY
             (new_ServiceInfo 0 "svc1" "10.0.0.1" 9001 [] None) in
  (30 - last_heartbeat s <= inject_Z (heartbeat_interval one_service))%Q /\
  s ∈ get_healthy_services one_service.
Proof.
  apply (monitor_cycle_healthy_fresh 30 one_service).
  vm_compute. apply list_elem_of_here.
Defined.

(** X6.  Running the monitor twice at the same instant changes nothing
    the first run had not changed. *)
Theorem monitor_cycle_idempotent (now : Q) (r : ServiceRegistry) :
  monitor_cycle now (monitor_cycle now r) = monitor_cycle now r.
Proof.
  unfold monitor_cycle, with_services. simpl. f_equal.
  unfold PyDict.update_all. rewrite map_map. apply map_ext.
  intros [k s]. simpl. by rewrite reclassify_twice.
Qed.

(** X7.  [update_heartbeat] answers whether the name is registered.  It
    keeps the keys and their order and every other entry; the entry of the
    name, if any, gets status [HEALTHY] and the time of the call and keeps
    its other fields; an unknown name leaves the registry as it was. *)
Theorem update_heartbeat_effect (now : Q) (n : string)
    (r : ServiceRegistry) :
  exists r',
    update_heartbeat now n r = ret (PyDict.mem n (services r), r') /\
    PyDict.keys (services r') = PyDict.keys (services r) /\
    (forall m, m <> n -> get_service m r' = get_service m r) /\
    get_service n r' =
      (fun s => set_status HEALTHY (set_last_heartbeat now s))
        <$> get_service n r /\
    (forall s, get_service n r = Some s ->
       PyDict.mem n (services r) = true /\
       exists s',
         get_service n r' = Some s' /\
         status s' = HEALTHY /\ last_heartbeat s' = now /\
         name s' = name s /\ host s' = host s /\ port s' = port s /\
         capabilities s' = capabilities s /\ metadata s' = metadata s) /\
    (get_service n r = None ->
       PyDict.mem n (services r) = false /\ r' = r).
Proof.
  eexists. split; [apply RegistryFacts.update_heartbeat_total|].
  assert (Hn : get_service n
            (with_services
               (PyDict.update n (set_status HEALTHY)
                  (PyDict.update n (set_last_heartbeat now) (services r))) r)
          = (fun s => set_status HEALTHY (set_last_heartbeat now s))
              <$> get_service n r).
  { rewrite RegistryFacts.get_service_heartbeat. by rewrite decide_True. }
  split_and!.
  - simpl. by rewrite !PyDictFacts.keys_update.
  - intros m Hm. rewrite RegistryFacts.get_service_heartbeat.
    by rewrite decide_False by congruence.
  - exact Hn.
  - intros s Hs. split.
    + unfold PyDict.mem. unfold get_service in Hs. by rewrite Hs.
    + rewrite Hn, Hs. simpl. eexists. split; [reflexivity|]. by split_and!.
  - unfold get_service. intros Hnone. split.
    + unfold PyDict.mem. by rewrite Hnone.
    + rewrite (RegistryFacts.update_absent n (set_last_heartbeat now))
        by done.
      rewrite (RegistryFacts.update_absent n (set_status HEALTHY)) by done.
      apply RegistryFacts.with_services_same.
Qed.

(** X8.  Registering a service under a new name and deregistering it
    again gives the directory back, entry for entry and in the same
    order. *)
Theorem register_deregister_round_trip (s : ServiceInfo)
    (r : ServiceRegistry) :
  get_service (name s) r = None ->
  exists r',
    deregister (name s) (snd (register s r)) = ret (true, r') /\
    services r' = services r.
Proof.
  unfold get_service. intros Hnew. eexists.
  rewrite RegistryFacts.deregister_total. simpl.
  unfold PyDict.mem. rewrite PyDictFacts.get_set_eq.
  split; [reflexivity|]. simpl.
  induction (services r) as [|[k v] d IH]; simpl.
  - by rewrite decide_True.
  - simpl in Hnew. destruct (decide (name s = k)); [done|]. simpl.
    rewrite decide_False by done. by rewrite IH.
Qed.

Lemma register_deregister_round_trip_witness :
  let s := new_ServiceInfo 7 "svc3" "10.0.0.3" 9003 ["search"] None in
  exists r',
    deregister (name s) (snd (register s two_services)) = ret (true, r') /\
    services r' = services two_services.
Proof.
  exact (register_deregister_round_trip
           (new_ServiceInfo 7 "svc3" "10.0.0.3" 9003 ["search"] None)
           two_services eq_refl).
Defined.

Lemma get_in_values (k : string) (d : list (string * ServiceInfo))
    (s : ServiceInfo) :
  PyDict.get k d = Some s -> s ∈ PyDict.values d.
Proof.
  unfold PyDict.values. induction d as [|[k0 v0] d IH]; simpl; [done|].
  destruct (decide (k = k0)).
  - intros [= ->]. apply list_elem_of_here.
  - intros H. apply list_elem_of_further. by apply IH.
Qed.

(** X23.  A heartbeat keeps a service routable through the next monitor
    cycles: if the monitor runs no later than one interval after the
    heartbeat, the entry is still [HEALTHY], with the time of the heartbeat,
    and is returned for each of its capabilities. *)
Theorem heartbeat_survives_monitor (t now : Q) (n : string)
    (r r' : ServiceRegistry) (s : ServiceInfo) :
  0 <= heartbeat_interval r ->
  (now - t <= inject_Z (heartbeat_interval r))%Q ->
  get_service n r = Some s ->
  update_heartbeat t n r = ret (true, r') ->
  let s' := set_status HEALTHY (set_last_heartbeat t s) in
  get_service n (monitor_cycle now r') = Some s' /\
  (forall c, c ∈ capabilities s ->
     s' ∈ get_services_by_capability c (monitor_cycle now r')).
Proof.
  intros Hhb Hfresh Hs. rewrite RegistryFacts.update_heartbeat_total.
  intros [= _ <-]. cbv zeta.
  assert (Hget : get_service n
            (monitor_cycle now
               (with_services
                  (PyDict.update n (set_status HEALTHY)
                     (PyDict.update n (set_last_heartbeat t) (services r)))
                  r)) = Some (set_status HEALTHY (set_last_heartbeat t s))).
  { unfold get_service, monitor_cycle. simpl.
    rewrite PyDictFacts.get_update_all, !PyDictFacts.get_update.
    rewrite !decide_True by done.
    unfold get_service in Hs. rewrite Hs. simpl. f_equal.
    destruct (RegistryFacts.reclassify_bands now (heartbeat_interval r)
                (set_status HEALTHY (set_last_heartbeat t s)))
      as (_ & _ & H3).
    apply H3. simpl. split; [done|].
    eapply Qle_trans; [exact Hfresh|]. rewrite <- Zle_Qle. lia. }
  split; [exact Hget|].
  intros c Hc. unfold get_services_by_capability.
  apply list_elem_of_filter. split; [by split|].
  by eapply get_in_values.
Qed.

Lemma heartbeat_survives_monitor_witness :
  let s := new_ServiceInfo 0 "svc1" "10.0.0.1" 9001 ["search"] None in
  let s' := set_status HEALTHY (set_last_heartbeat 50 s) in
  let r' := with_services
              (PyDict.update "svc1" (set_status HEALTHY)
                 (PyDict.update "svc1" (set_last_heartbeat 50)
                    (services two_services))) two_services in
  get_service "svc1" (monitor_cycle 80 r') = Some s' /\
  (forall c, c ∈ capabilities s ->
     s' ∈ get_services_by_capability c (monitor_cycle 80 r')).
Proof.
  apply (heartbeat_survives_monitor 50 80 "svc1" two_services).
  - simpl. lia.
  - vm_compute. discriminate.
  - reflexivity.
  - reflexivity.
Defined.

End RegistryExtra.

(** * Further properties of the load balancer *)

Module BalancerExtra.

Import Registry Exn Router Router.LoadBalancer Scenario.

Lemma least_loop_member (conns : gmap string Z) (services : list ServiceInfo)
    (m : option Z) (sel : option ServiceInfo) (p : ServiceInfo) :
  least_loop conns services m sel = Some p ->
  sel = Some p \/ p ∈ services.
Proof.
  revert m sel. induction services as [|s services IH]; intros m sel; simpl.
  - by left.
  - destruct (below _ m); intros H; apply IH in H as [H|H].
    + simplify_eq. right. apply list_elem_of_here.
    + right. by apply list_elem_of_further.
    + by left.
    + right. by apply list_elem_of_further.
Qed.

(** On a non-empty list each strategy returns one of the candidates. *)
Lemma round_robin_member (s : ServiceInfo) (rest : list ServiceInfo)
    (state : LBState) :
  exists p st',
    round_robin (s :: rest) state = (Some p, st') /\ p ∈ s :: rest /\
    connections st' = connections state.
Proof.
  destruct (LoadBalancerSpec.round_robin_index s rest state)
    as (_ & p & Hp & Heq).
  eexists p, _. split; [exact Heq|]. split; [|done].
  by eapply list_elem_of_lookup_2.
Qed.

Lemma random_choice_member (rnd : nat) (s : ServiceInfo)
    (rest : list ServiceInfo) (state : LBState) :
  exists p,
    random_choice rnd (s :: rest) state = (Some p, state) /\ p ∈ s :: rest.
Proof.
  destruct (lookup_lt_is_Some_2 (s :: rest)
              (rnd mod length (s :: rest))%nat) as [p Hp].
  { apply Nat.mod_upper_bound. simpl. lia. }
  exists p. unfold random_choice. rewrite Hp. split; [done|].
  by eapply list_elem_of_lookup_2.
Qed.

Lemma least_connections_member (s : ServiceInfo) (rest : list ServiceInfo)
    (state : LBState) :
  exists p,
    least_connections (s :: rest) state = (Some p, state) /\ p ∈ s :: rest.
Proof.
  destruct (LoadBalancerSpec.least_connections_min s rest state)
    as (p & l1 & l2 & Heq & Hl & _).
  exists p. split; [exact Heq|]. rewrite Hl.
  apply elem_of_app. right. apply list_elem_of_here.
Qed.

(** X9.  Whatever the strategy, the draw and the state: an empty
    candidate list gives no pick and leaves the state alone; a non-empty one
    gives a pick, and the pick is one of the candidates.  Only round-robin
    writes to the state, and no strategy touches its ['connections']
    entry. *)
Theorem strategy_picks_candidate (strategy : Strategy) (rnd : nat)
    (services : list ServiceInfo) (state : LBState) :
  let out := run_strategy strategy rnd services state in
  match services with
  | [] => out = (None, state)
  | _ :: _ => exists p, fst out = Some p /\ p ∈ services
  end /\
  connections (snd out) = connections state /\
  (strategy <> RoundRobin -> snd out = state).
Proof.
  cbv zeta. destruct services as [|s rest].
  - by destruct strategy.
  - destruct strategy; unfold run_strategy.
    + destruct (round_robin_member s rest state) as (p & st' & -> & Hin & Hc).
      simpl. split_and!; [by exists p | done | done].
    + destruct (random_choice_member rnd s rest state) as (p & -> & Hin).
      simpl. split_and!; [by exists p | done | done].
    + destruct (least_connections_member s rest state) as (p & -> & Hin).
      simpl. split_and!; [by exists p | done | done].
Qed.

(** X10.  [least_connections] on a non-empty list, with the counts it
    finds in the state (all zero when the state has none): the pick sits at
    an index [i] of the list, no candidate has a smaller count, and every
    candidate before [i] has a strictly larger one.  The state is not
    changed. *)
Theorem least_connections_first_minimum (s : ServiceInfo)
    (rest : list ServiceInfo) (state : LBState) :
  let services := s :: rest in
  let conns := default ∅ (connections state) in
  exists (i : nat) (p : ServiceInfo),
    least_connections services state = (Some p, state) /\
    services !! i = Some p /\
    (forall j x, services !! j = Some x ->
       count_of conns p <= count_of conns x) /\
    (forall j x, (j < i)%nat -> services !! j = Some x ->
       count_of conns p < count_of conns x).
Proof.
  cbv zeta.
  destruct (LoadBalancerSpec.least_connections_min s rest state)
    as (p & l1 & l2 & Heq & Hl & H1 & H2).
  exists (length l1), p. rewrite Hl. split_and!.
  - by rewrite <- Hl.
  - by rewrite list_lookup_middle.
  - intros j x Hx. apply list_elem_of_lookup_2 in Hx.
    apply elem_of_app in Hx as [Hx|Hx].
    + specialize (H1 x Hx). lia.
    + apply elem_of_cons in Hx as [->|Hx]; [lia | by apply H2].
  - intros j x Hj Hx. rewrite lookup_app_l in Hx by done.
    apply H1. by eapply list_elem_of_lookup_2.
Qed.

(** The picks of [k] calls in a row, from the position the state holds. *)
Lemma select_many_indices (s : ServiceInfo) (rest : list ServiceInfo) :
  forall (k : nat) (state : LBState),
    select_many k (s :: rest) state =
    map (fun j : nat =>
           (s :: rest) !! Z.to_nat
             ((default (-1) (last_index state) + 1 + Z.of_nat j)
                `mod` Z.of_nat (length (s :: rest))))
        (seq 0 k).
Proof.
  induction k as [|k IH]; intros state; [done|].
  cbn [select_many].
  destruct (LoadBalancerSpec.round_robin_index s rest state)
    as (_ & p & Hp & Heq).
  rewrite Heq. cbn [seq map]. f_equal.
  - rewrite Z.add_0_r. by rewrite Hp.
  - rewrite IH. cbn [last_index].
    rewrite <- seq_shift, map_map. apply map_ext. intros j.
    f_equal. f_equal.
    set (i := default (-1) (last_index state)).
    set (n := Z.of_nat (length (s :: rest))).
    change (default (-1) (Some ((i + 1) `mod` n))) with ((i + 1) `mod` n).
    replace (i + 1 + Z.of_nat (S j)) with ((i + 1) + (1 + Z.of_nat j)) by lia.
    replace ((i + 1) `mod` n + 1 + Z.of_nat j)
      with ((i + 1) `mod` n + (1 + Z.of_nat j)) by lia.
    apply Zplus_mod_idemp_l.
Qed.

(** X11.  Round-robin over a stable, non-empty candidate list is fair:
    from any state, as many picks in a row as there are candidates are the
    list rotated to the position after the stored index, so every candidate
    is picked exactly once. *)
Theorem round_robin_fair (s : ServiceInfo) (rest : list ServiceInfo)
    (state : LBState) :
  let services := s :: rest in
  let start :=
    Z.to_nat ((default (-1) (last_index state) + 1)
                `mod` Z.of_nat (length services)) in
  select_many (length services) services state
    = map Some (rotate start services) /\
  select_many (length services) services state ≡ₚ map Some services.
Proof.
  cbv zeta.
  assert (Hlen : 0 < Z.of_nat (length (s :: rest))) by (simpl; lia).
  assert (Heq : select_many (length (s :: rest)) (s :: rest) state =
    map Some (rotate
      (Z.to_nat ((default (-1) (last_index state) + 1)
                   `mod` Z.of_nat (length (s :: rest)))) (s :: rest))).
  { rewrite select_many_indices. apply list_eq. intros j.
    change (map ?f ?l) with (f <$> l). rewrite !list_lookup_fmap.
    destruct (decide (j < length (s :: rest))%nat) as [Hj|Hj].
    - rewrite lookup_seq_lt by done. rewrite lookup_rotate_r by done.
      cbn [fmap option_fmap option_map Nat.add].
      unfold rotate_nat_add.
      rewrite Z2Nat.id by (apply Z.mod_pos_bound; lia).
      rewrite Zplus_mod_idemp_l.
      pose proof (Z.mod_pos_bound
        (default (-1) (last_index state) + 1 + Z.of_nat j)
        _ Hlen) as Hb.
      destruct (lookup_lt_is_Some_2 (s :: rest)
        (Z.to_nat ((default (-1) (last_index state) + 1 + Z.of_nat j)
                     `mod` Z.of_nat (length (s :: rest)))))
        as [x Hx]; [lia|].
      by rewrite Hx.
    - rewrite lookup_seq_ge by lia.
      rewrite (lookup_ge_None_2 (rotate _ _)); [done|].
      rewrite length_rotate. lia. }
  split; [exact Heq|]. rewrite Heq.
  apply fmap_Permutation. unfold rotate.
  rewrite Permutation_app_comm. by rewrite take_drop.
Qed.

End BalancerExtra.

(** * Further properties of the router *)

Module RouterExtra.

Import Registry Exn Router Hub Scenario.

Lemma forward_request_raised (call : option exn) (others : Router -> Router)
    (s : ServiceInfo) (req : RouteRequest) (r : Router) (e : exn) :
  fst (forward_request call others s req r) = inr e ->
  call = Some e \/ is_Exception e = true.
Proof.
  unfold forward_request.
  destruct (release _ _) as [c|e'] eqn:Hrel; simpl.
  - destruct call as [e0|]; simpl; [|discriminate].
    intros [= <-]. by left.
  - intros [= <-]. unfold release, ret, raise in Hrel.
    destruct (_ !! _); [discriminate|]. injection Hrel as <-. by right.
Qed.

Lemma forward_request_returned (call : option exn) (others : Router -> Router)
    (s : ServiceInfo) (req : RouteRequest) (r : Router)
    (resp : RouteResponse) :
  fst (forward_request call others s req r) = ret resp ->
  call = None /\ success resp = true /\ service_name resp = Some (name s).
Proof.
  unfold forward_request.
  destruct (release _ _) as [c|e']; simpl; [|discriminate].
  destruct call as [e0|]; simpl; [discriminate|].
  intros [= <-]. done.
Qed.

Lemma with_state_same (r : Router) : with_state (load_balancer_state r) r = r.
Proof. by destruct r. Qed.

(** The cases of the [try] block of [route]: a failed response with the
    router untouched, or a forward to a service that is healthy and either
    the named target or a candidate for the capability. *)
Lemma route_body_cases (rnd : nat) (call : option exn)
    (others : Router -> Router) (req : RouteRequest) (r : Router) :
  (exists msg,
     route_body rnd call others req r = (ret (failure msg req), r) /\
     match truthy (target_service req), truthy (capability req) with
     | Some t, _ =>
         msg = "Service " ++ t ++ " not available" /\
         (get_service t (registry r) = None \/
          exists s, get_service t (registry r) = Some s /\
                    status s <> HEALTHY)
     | None, Some c =>
         msg = "No services available for capability: " ++ c /\
         get_services_by_capability c (registry r) = []
     | None, None => msg = "No target service or capability specified"
     end) \/
  (exists s st,
     route_body rnd call others req r =
       forward_request call others s req (with_state st r) /\
     status s = HEALTHY /\
     s ∈ PyDict.values (services (registry r)) /\
     connections st = connections (load_balancer_state r) /\
     match truthy (target_service req) with
     | Some t => get_service t (registry r) = Some s /\
                 st = load_balancer_state r
     | None => exists c, truthy (capability req) = Some c /\
                         c ∈ capabilities s /\
                         (load_balancer r <> RoundRobin ->
                          st = load_balancer_state r)
     end).
Proof.
  unfold route_body.
  destruct (truthy (target_service req)) as [t|].
  - destruct (get_service t (registry r)) as [s|] eqn:Hs.
    + destruct (decide (status s = HEALTHY)) as [Hh|Hh].
      * right. exists s, (load_balancer_state r).
        rewrite with_state_same. split_and!; try done.
        unfold get_service in Hs. clear Hh.
        unfold PyDict.values.
        induction (services (registry r)) as [|[k v] d IH];
          [discriminate|].
        simpl in Hs. destruct (decide (t = k)).
        -- simplify_eq. apply list_elem_of_here.
        -- apply list_elem_of_further. by apply IH.
      * left. eexists. split; [done|]. split; [done|]. right. by exists s.
    + left. eexists. split; [done|]. split; [done|]. by left.
  - destruct (truthy (capability req)) as [c|].
    + destruct (get_services_by_capability c (registry r)) as [|a l] eqn:Hl.
      * left. eexists. by split.
      * assert (Hpick : exists p st,
                  run_strategy (load_balancer r) rnd (a :: l)
                    (load_balancer_state r) = (Some p, st) /\
                  p ∈ a :: l /\
                  connections st = connections (load_balancer_state r) /\
                  (load_balancer r <> RoundRobin ->
                   st = load_balancer_state r)).
        { destruct (load_balancer r); unfold run_strategy.
          - destruct (BalancerExtra.round_robin_member a l
                        (load_balancer_state r)) as (p & st & H1 & H2 & H3).
            by exists p, st.
          - destruct (BalancerExtra.random_choice_member rnd a l
                        (load_balancer_state r)) as (p & H1 & H2).
            by exists p, (load_balancer_state r).
          - destruct (BalancerExtra.least_connections_member a l
                        (load_balancer_state r)) as (p & H1 & H2).
            by exists p, (load_balancer_state r). }
        destruct Hpick as (p & st & Hrun & Hin & Hc & Hst).
        rewrite Hrun. right. exists p, st. rewrite <- Hl in Hin.
        unfold get_services_by_capability in Hin.
        apply list_elem_of_filter in Hin as [[Hcap Hh] Hin].
        split_and!; try done. exists c. by split_and!.
    + left. eexists. by split.
Qed.

(** An exception leaves [route] only if the call to the worker raised it
    and it is not an [Exception]. *)
Lemma route_raised (rnd : nat) (call : option exn)
    (others : Router -> Router) (req : RouteRequest) (r : Router) (e : exn) :
  fst (route rnd call others req r) = inr e ->
  call = Some e /\ is_Exception e = false.
Proof.
  unfold route.
  destruct (route_body rnd call others req r) as [[resp|e'] r'] eqn:Hb;
    [discriminate|].
  destruct (is_Exception e') eqn:He; simpl; [discriminate|].
  intros [= <-]. split; [|done].
  destruct (route_body_cases rnd call others req r)
    as [(msg & Hf & _)|(s & st & Hf & _)]; rewrite Hf in Hb.
  - discriminate.
  - assert (Hfst : fst (forward_request call others s req (with_state st r))
                   = inr e') by (by rewrite Hb).
    apply forward_request_raised in Hfst as [H|H]; [done | congruence].
Qed.

(** X12.  [route] does not let an [Exception] escape: if the call to the
    worker returns or raises an [Exception], [route] returns a response,
    whatever the request, the router, and the tasks scheduled during the
    call. *)
Theorem route_returns_response (rnd : nat) (call : option exn)
    (others : Router -> Router) (req : RouteRequest) (r : Router) :
  (forall e, call = Some e -> is_Exception e = true) ->
  exists resp, fst (route rnd call others req r) = ret resp.
Proof.
  intros Hcall.
  destruct (fst (route rnd call others req r)) as [resp|e] eqn:Hr.
  - by exists resp.
  - apply route_raised in Hr as [Hc He].
    rewrite (Hcall e Hc) in He. discriminate.
Qed.

Lemma route_returns_response_witness :
  exists resp,
    fst (route 0 (Some (Exception "connection refused")) id
           (by_capability "chat") busy_hub) = ret resp.
Proof.
  apply route_returns_response.
  intros e [= <-]. reflexivity.
Defined.

(** X13.  A successful response names a service that was in the
    directory and [HEALTHY] when the request was routed: the service
    registered under the target name if the request had one, otherwise one
    advertising the requested capability.  The call to the worker
    returned. *)
Theorem route_success_sound (rnd : nat) (call : option exn)
    (others : Router -> Router) (req : RouteRequest) (r : Router)
    (resp : RouteResponse) :
  fst (route rnd call others req r) = ret resp ->
  success resp = true ->
  call = None /\
  exists s,
    service_name resp = Some (name s) /\
    s ∈ PyDict.values (services (registry r)) /\
    status s = HEALTHY /\
    match truthy (target_service req) with
    | Some t => get_service t (registry r) = Some s
    | None => exists c, truthy (capability req) = Some c /\
                        c ∈ capabilities s
    end.
Proof.
  intros Hr Hok. unfold route in Hr.
  destruct (route_body_cases rnd call others req r)
    as [(msg & Hf & _)|(s & st & Hf & Hh & Hin & _ & Hsel)]; rewrite Hf in Hr.
  - simpl in Hr. injection Hr as <-. discriminate.
  - destruct (forward_request call others s req (with_state st r))
      as [[resp'|e] r'] eqn:Hfw.
    + simpl in Hr. injection Hr as ->.
      assert (Hfst : fst (forward_request call others s req (with_state st r))
                     = ret resp) by (by rewrite Hfw).
      apply forward_request_returned in Hfst as (Hc & _ & Hn).
      split; [done|]. exists s. split_and!; try done.
      destruct (truthy (target_service req)); [by destruct Hsel|].
      destruct Hsel as (c & Hc' & Hcap & _). by exists c.
    + destruct (is_Exception e); simpl in Hr; [|discriminate].
      injection Hr as <-. discriminate.
Qed.

Lemma route_success_sound_witness :
  let resp := {| success := true;
                 data := Some [("message", "Request processed by B")];
                 error := None; service_name := Some "B";
                 response_request_id := None |} in
  None = (None : option exn) /\
  exists s,
    service_name resp = Some (name s) /\
    s ∈ PyDict.values (services (registry idle_hub)) /\
    status s = HEALTHY /\
    match truthy (target_service (direct "B")) with
    | Some t => get_service t (registry idle_hub) = Some s
    | None => exists c, truthy (capability (direct "B")) = Some c /\
                        c ∈ capabilities s
    end.
Proof.
  exact (route_success_sound 0 None id (direct "B") idle_hub _
           eq_refl eq_refl).
Defined.

(** X14.  A request naming a target service that is not registered, or
    registered but not [HEALTHY], is answered [Service <target> not
    available]: no worker is called, the router is left as it was, and a
    capability given besides is ignored. *)
Theorem route_target_unavailable (rnd : nat) (call : option exn)
    (others : Router -> Router) (req : RouteRequest) (r : Router)
    (t : string) :
  truthy (target_service req) = Some t ->
  (forall s, get_service t (registry r) = Some s -> status s <> HEALTHY) ->
  route rnd call others req r =
  (ret {| success := false; data := None;
          error := Some ("Service " ++ t ++ " not available");
          service_name := None;
          response_request_id := request_id req |}, r).
Proof.
  intros Ht Hun. unfold route, route_body. rewrite Ht.
  destruct (get_service t (registry r)) as [s|]; [|done].
  destruct (decide (status s = HEALTHY)) as [Hh|Hh]; [|done].
  by destruct (Hun s eq_refl).
Qed.

Lemma route_target_unavailable_witness :
  route 0 None id
    {| method := "ping"; params := []; capability := Some "chat";
       target_service := Some "missing"; request_id := Some "r-7" |}
    idle_hub =
  (ret {| success := false; data := None;
          error := Some "Service missing not available";
          service_name := None;
          response_request_id := Some "r-7" |}, idle_hub).
Proof.
  apply (route_target_unavailable 0 None id
           {| method := "ping"; params := []; capability := Some "chat";
              target_service := Some "missing"; request_id := Some "r-7" |}
           idle_hub "missing" eq_refl).
  intros s Hs. vm_compute in Hs. discriminate.
Defined.

(** X15.  When the call to the worker returns and nothing else is
    scheduled meanwhile, a failed response means that no worker was chosen:
    the router is exactly as before, and the error is one of three: the
    target is not registered or not healthy, no healthy service advertises
    the capability, or the request gave neither. *)
Theorem route_failure_leaves_router (rnd : nat) (req : RouteRequest)
    (r : Router) (resp : RouteResponse) :
  fst (route rnd None id req r) = ret resp ->
  success resp = false ->
  snd (route rnd None id req r) = r /\
  match truthy (target_service req), truthy (capability req) with
  | Some t, _ =>
      error resp = Some ("Service " ++ t ++ " not available") /\
      (forall s, get_service t (registry r) = Some s -> status s <> HEALTHY)
  | None, Some c =>
      error resp = Some ("No services available for capability: " ++ c) /\
      get_services_by_capability c (registry r) = []
  | None, None =>
      error resp = Some "No target service or capability specified"
  end.
Proof.
  intros Hr Hfail. unfold route in *.
  destruct (route_body_cases rnd None id req r)
    as [(msg & Hf & Hmsg)|(s & st & Hf & _)]; rewrite Hf in *.
  - simpl in *. injection Hr as <-. split; [done|]. simpl.
    destruct (truthy (target_service req)) as [t|].
    + destruct Hmsg as [-> Hwhy]. split; [done|].
      intros s Hs. destruct Hwhy as [Hn|(s' & Hs' & Hh)]; congruence.
    + destruct (truthy (capability req)) as [c|].
      * by destruct Hmsg as [-> ?].
      * by subst msg.
  - rewrite RouterFacts.forward_request_alone in Hr. simpl in Hr.
    injection Hr as <-. discriminate.
Qed.

Lemma route_failure_leaves_router_witness :
  snd (route 0 None id (by_capability "video") busy_hub) = busy_hub /\
  error (failure "No services available for capability: video"
           (by_capability "video"))
    = Some "No services available for capability: video" /\
  get_services_by_capability "video" (registry busy_hub) = [].
Proof.
  exact (route_failure_leaves_router 0 (by_capability "video") busy_hub _
           eq_refl eq_refl).
Defined.

(** X16.  A routed request, with nothing else scheduled during the call
    and whatever the call does, never touches the registry or the strategy;
    every connection counter reads afterwards what it read before; and the
    balancer state changes only for a capability request under
    round-robin. *)
Theorem route_frame (rnd : nat) (call : option exn) (req : RouteRequest)
    (r : Router) :
  let r' := snd (route rnd call id req r) in
  registry r' = registry r /\
  load_balancer r' = load_balancer r /\
  (forall n, default 0 (active_connections r' !! n) =
             default 0 (active_connections r !! n)) /\
  connections (load_balancer_state r') = connections (load_balancer_state r) /\
  (load_balancer r <> RoundRobin \/ truthy (target_service req) <> None ->
   load_balancer_state r' = load_balancer_state r).
Proof.
  cbv zeta. rewrite RouterFacts.route_snd.
  destruct (route_body_cases rnd call id req r)
    as [(msg & Hf & _)|(s & st & Hf & _ & _ & Hc & Hsel)]; rewrite Hf.
  - done.
  - rewrite RouterFacts.forward_request_alone. simpl.
    split_and!; try done.
    + intros n. destruct (decide (name s = n)) as [<-|Hne].
      * by rewrite lookup_insert_eq.
      * by rewrite lookup_insert_ne.
    + intros Hwhy. destruct (truthy (target_service req)) as [t|].
      * by destruct Hsel.
      * destruct Hsel as (c & _ & _ & Hst).
        destruct Hwhy as [Hrr|Ht]; [by apply Hst | done].
Qed.

(** X17.  A service is not routable between its registration and its
    first heartbeat: a request naming it is refused, with the hub
    untouched; once the heartbeat has arrived the same request is forwarded
    to it. *)
Theorem routable_after_first_heartbeat (now now' : Q) (n h : string) (p : Z)
    (caps : option (list string)) (md : option (list (string * string)))
    (rnd : nat) (call : option exn) (others : Router -> Router)
    (req : RouteRequest) (hub : Router) :
  truthy (target_service req) = Some n ->
  let hub1 := snd (register_service now (valid_body n h p caps md) hub) in
  let hub2 := snd (heartbeat now' n hub1) in
  route rnd call others req hub1 =
    (ret (failure ("Service " ++ n ++ " not available") req), hub1) /\
  fst (route rnd None id req hub2) =
    forward_body None
      (set_status HEALTHY
         (set_last_heartbeat now' (record_of now n h p caps md))) req.
Proof.
  intros Ht. cbv zeta.
  rewrite DirectorySpec.register_service_valid. simpl snd.
  split.
  - unfold route, route_body. rewrite Ht. unfold get_service. simpl.
    by rewrite PyDictFacts.get_set_eq.
  - unfold heartbeat. rewrite RegistryFacts.update_heartbeat_total.
    unfold ret. simpl.
    unfold PyDict.mem. rewrite PyDictFacts.get_set_eq. simpl.
    apply RouterFacts.route_returned.
    unfold route_body. rewrite Ht. unfold get_service. simpl.
    rewrite !PyDictFacts.get_update, !decide_True by done.
    rewrite PyDictFacts.get_set_eq. simpl.
    by rewrite RouterFacts.forward_request_alone.
Qed.

Lemma routable_after_first_heartbeat_witness :
  let hub := lifespan default_config in
  let hub1 :=
    snd (register_service 3 (valid_body "B" "10.0.0.2" 9002 None None) hub) in
  let hub2 := snd (heartbeat 4 "B" hub1) in
  route 0 None id (direct "B") hub1 =
    (ret (failure ("Service " ++ "B" ++ " not available") (direct "B")),
     hub1) /\
  fst (route 0 None id (direct "B") hub2) =
    forward_body None
      (set_status HEALTHY
         (set_last_heartbeat 4
            (record_of 3 "B" "10.0.0.2" 9002 None None))) (direct "B").
Proof.
  exact (routable_after_first_heartbeat 3 4 "B" "10.0.0.2" 9002 None None
           0 None id (direct "B") (lifespan default_config) eq_refl).
Defined.

End RouterExtra.

(** * Further properties of the HTTP handlers *)

Module HubExtra.

Import Registry Exn Router Hub Observability Scenario Invariant.

(** X18.  [POST /deregister/{name}]: for a registered name the answer
    is 200 with [{status: deregistered, service: name}], the name is gone
    from the directory and the other entries are as they were; for any
    other name the answer is 404 and the hub is untouched.  Nothing else
    can happen. *)
Theorem deregister_service_status (n : string) (hub : Router) :
  let out := deregister_service n hub in
  match get_service n (registry hub) with
  | Some _ =>
      fst out = ret [("status", "deregistered"); ("service", n)] /\
      http_status (fst out) = Some 200 /\
      get_service n (registry (snd out)) = None /\
      (forall m, m <> n ->
         get_service m (registry (snd out)) = get_service m (registry hub))
  | None =>
      fst out = raise (HTTPException 404 "Service not found") /\
      http_status (fst out) = Some 404 /\
      snd out = hub
  end.
Proof.
  cbv zeta. unfold deregister_service.
  rewrite RegistryFacts.deregister_total. unfold ret. unfold PyDict.mem.
  unfold get_service.
  destruct (PyDict.get n (services (registry hub))) as [s|] eqn:Hg.
  - simpl. split_and!; try done.
    + apply PyDictFacts.get_remove_eq.
    + intros m Hm. apply PyDictFacts.get_remove_ne. congruence.
  - simpl. split_and!; try done.
    rewrite PyDictFacts.remove_absent by done.
    by rewrite RegistryFacts.with_services_same, HubFacts.with_registry_same.
Qed.

(** X19.  [POST /heartbeat/{name}]: for a registered name the answer is
    200 with [{status: ok}] and the entry becomes [HEALTHY] with the time
    of the call, its other fields and the other entries as they were; for
    any other name the answer is 404 and the hub is untouched. *)
Theorem heartbeat_status (now : Q) (n : string) (hub : Router) :
  let out := heartbeat now n hub in
  match get_service n (registry hub) with
  | Some s =>
      fst out = ret [("status", "ok")] /\
      http_status (fst out) = Some 200 /\
      get_service n (registry (snd out)) =
        Some (set_status HEALTHY (set_last_heartbeat now s)) /\
      (exists s',
         get_service n (registry (snd out)) = Some s' /\
         status s' = HEALTHY /\ last_heartbeat s' = now /\
         name s' = name s /\ host s' = host s /\ port s' = port s /\
         capabilities s' = capabilities s /\ metadata s' = metadata s) /\
      (forall m, m <> n ->
         get_service m (registry (snd out)) = get_service m (registry hub))
  | None =>
      fst out = raise (HTTPException 404 "Service not found") /\
      http_status (fst out) = Some 404 /\
      snd out = hub
  end.
Proof.
  cbv zeta. unfold heartbeat.
  rewrite RegistryFacts.update_heartbeat_total. unfold ret.
  unfold PyDict.mem.
  pose proof (RegistryFacts.get_service_heartbeat now n) as Hget.
  unfold get_service in *.
  destruct (PyDict.get n (services (registry hub))) as [s|] eqn:Hg.
  - simpl.
    assert (Hn : PyDict.get n
              (PyDict.update n (set_status HEALTHY)
                 (PyDict.update n (set_last_heartbeat now)
                    (services (registry hub)))) =
            Some (set_status HEALTHY (set_last_heartbeat now s))).
    { specialize (Hget n (registry hub)). simpl in Hget.
      rewrite Hget, decide_True by done. by rewrite Hg. }
    split_and!; try done.
    + eexists. split; [exact Hn|]. by split_and!.
    + intros m Hm. specialize (Hget m (registry hub)). simpl in Hget.
      rewrite Hget. by rewrite decide_False by congruence.
  - simpl. split_and!; try done.
    rewrite (RegistryFacts.update_absent n (set_last_heartbeat now)) by done.
    rewrite (RegistryFacts.update_absent n (set_status HEALTHY)) by done.
    by rewrite RegistryFacts.with_services_same, HubFacts.with_registry_same.
Qed.

(** X20.  The answers of [POST /route]: 400 exactly when the body has
    no [method]; a returned body is always a successful response; the only
    statuses are 200, 400 and 500 (a failed routing is answered 500: the
    503 raised for it is caught by the handler's own [except Exception]);
    no status at all only when the call to the worker was cancelled. *)
Theorem route_request_statuses (rnd : nat) (call : option exn)
    (others : Router -> Router) (b : RouteBody) (hub : Router) :
  let out := route_request rnd call others b hub in
  (http_status (fst out) = Some 400 <-> body_method b = None) /\
  (forall resp, fst out = ret resp -> success resp = true) /\
  match http_status (fst out) with
  | Some c => c = 200 \/ c = 400 \/ c = 500
  | None => call = Some CancelledError
  end.
Proof.
  cbv zeta. unfold route_request.
  destruct (body_method b) as [m|]; simpl.
  2:{ split_and!; [done | discriminate | by right; left]. }
  set (req := {| method := m |}).
  destruct (route rnd call others req hub) as [[resp|e] hub'] eqn:Hr; simpl.
  - destruct (success resp) eqn:Hs; simpl.
    + split_and!; [split; discriminate | by intros ? [= <-] | by left].
    + split_and!; [split; discriminate | discriminate | by right; right].
  - assert (Hfst : fst (route rnd call others req hub) = inr e)
      by (by rewrite Hr).
    apply RouterExtra.route_raised in Hfst as [-> He].
    destruct e; try discriminate. simpl.
    split_and!; [split; discriminate | discriminate | done].
Qed.

Lemma filter_map_length (now : Q) (hb : Z) (l : list ServiceInfo) :
  (length (filter (fun s => status s = HEALTHY) (map (reclassify now hb) l))
   <= length (filter (fun s => status s = HEALTHY) l))%nat.
Proof.
  induction l as [|s l IH]; simpl; [done|].
  rewrite !filter_cons.
  destruct (decide (status (reclassify now hb s) = HEALTHY)) as [H|H].
  - apply RegistryExtra.reclassify_healthy in H as (_ & Hs & _).
    rewrite decide_True by done. simpl. lia.
  - destruct (decide (status s = HEALTHY)); simpl; lia.
Qed.

(** X21.  The routing statistics: the healthy count never exceeds the
    total; a monitor cycle keeps the total and the connection counters and
    cannot raise the healthy count. *)
Theorem routing_stats_monitor (now : Q) (r : Router) :
  let before := get_routing_stats r in
  let after :=
    get_routing_stats (with_registry (monitor_cycle now (registry r)) r) in
  (stat_healthy_services before <= stat_total_services before)%nat /\
  stat_total_services after = stat_total_services before /\
  (stat_healthy_services after <= stat_healthy_services before)%nat /\
  stat_active_connections after = stat_active_connections before.
Proof.
  cbv zeta. unfold get_routing_stats, get_healthy_services. simpl.
  split_and!.
  - etransitivity; [apply length_filter|].
    unfold PyDict.values. by rewrite length_map.
  - unfold PyDict.update_all. by rewrite length_map.
  - rewrite PyDictFacts.values_update_all. apply filter_map_length.
  - done.
Qed.

(** X22.  [GET /services/{capability}] after [POST /deregister/{name}],
    on a hub whose records sit under their names: whatever the capability
    and whether or not the name was registered, the listing has no entry of
    that name.  Before the hub has started the listing is empty. *)
Theorem listing_after_deregister (n c : string) (hub : Router) :
  keyed (services (registry hub)) ->
  let hub' := snd (deregister_service n hub) in
  (forall h p, (n, h, p) ∉ snd (services_by_capability c (Some hub'))) /\
  services_by_capability c None = (c, []).
Proof.
  intros Hk. cbv zeta. split; [|done].
  intros h p Hin. unfold services_by_capability in Hin. simpl in Hin.
  change (map ?f ?l) with (f <$> l) in Hin.
  apply list_elem_of_fmap in Hin as (s & Heq & Hs).
  injection Heq as Hn _ _.
  unfold deregister_service in Hs.
  rewrite RegistryFacts.deregister_total in Hs. unfold ret in Hs.
  destruct (PyDict.mem n (services (registry hub))); simpl in Hs;
    apply RegistryExtra.capability_after_remove in Hs as [Hne _];
    done.
Qed.

Lemma listing_after_deregister_witness :
  let hub' := snd (deregister_service "B" idle_hub) in
  (forall h p, (("B", h, p) : string * string * Z)
               ∉ snd (services_by_capability "chat" (Some hub'))) /\
  services_by_capability "chat" None = ("chat", []).
Proof.
  apply (listing_after_deregister "B" "chat" idle_hub).
  vm_compute. repeat constructor.
Defined.

End HubExtra.
